(** * travel-buddy-backend: the four Flask handlers of [app.py]

    A shallow embedding of [chat], [weather], [hotels] and [geocode].
    Python values that come out of JSON parsing are a tagged union
    ([pyval]); Python's dynamically typed operations ([d.get], [d[k]],
    [k in d], truthiness, iteration) are fallible functions on it that
    raise the exception Python raises.  A handler is a computation in a
    state-and-exception monad over the process state ([world]): the
    module globals it reads, the outbound calls it has issued and the
    lines it has printed.  The third-party services are a stub that
    answers each outbound call. *)

From Stdlib Require Import String Ascii List ZArith Bool Lia.
From Stdlib Require Import DecimalString.
From Stdlib Require Import Floats.SpecFloat.
Import ListNotations.
Open Scope string_scope.
Set Warnings "-register-all".

(** ** Python values *)

Module Py.

(** A Python [str] is modelled by a [string] whose characters are the
    code points below 256; [py_lower], [py_isspace] are Python's on that
    range. *)

Inductive pyval : Type :=
| PNone
| PBool (b : bool)
| PInt (z : Z)
| PFloat (f : spec_float)
| PStr (s : string)
| PList (l : list pyval)
| PDict (items : list (string * pyval)).

(** Keys used by subscription: [o["k"]] and [o[0]]. *)
Inductive key : Type :=
| KStr (s : string)
| KInt (i : Z).

Inductive exn : Type :=
| AttributeError
| TypeError
| KeyError (k : key)
| IndexError
| ExternalError (msg : string).

Inductive result (A : Type) : Type :=
| Ok (a : A)
| Raise (e : exn).
Arguments Ok {A} a.
Arguments Raise {A} e.

Definition rbind {A B} (r : result A) (k : A -> result B) : result B :=
  match r with
  | Ok a => k a
  | Raise e => Raise e
  end.

(** [bool(v)] *)
Definition py_truthy (v : pyval) : bool :=
  match v with
  | PNone => false
  | PBool b => b
  | PInt z => negb (Z.eqb z 0)
  | PFloat (S754_zero _) => false
  | PFloat _ => true
  | PStr s => negb (String.eqb s EmptyString)
  | PList l => match l with [] => false | _ => true end
  | PDict d => match d with [] => false | _ => true end
  end.

(** The entry of a dict under a key; keys of a dict are distinct. *)
Fixpoint lookup (k : string) (items : list (string * pyval)) : option pyval :=
  match items with
  | [] => None
  | (k', v) :: rest => if String.eqb k k' then Some v else lookup k rest
  end.

(** [o.get(k, default)]: only dicts have the method. *)
Definition py_get (o : pyval) (k : string) (default : pyval) : result pyval :=
  match o with
  | PDict items =>
      match lookup k items with
      | Some v => Ok v
      | None => Ok default
      end
  | _ => Raise AttributeError
  end.

(** Element [i] of a sequence with Python's negative indices. *)
Definition seq_index {A} (l : list A) (i : Z) : option A :=
  let n := Z.of_nat (length l) in
  if (0 <=? i)%Z then nth_error l (Z.to_nat i)
  else if (0 <=? n + i)%Z then nth_error l (Z.to_nat (n + i))
  else None.

(** [o[k]] *)
Definition py_getitem (o : pyval) (k : key) : result pyval :=
  match o, k with
  | PDict items, KStr s =>
      match lookup s items with
      | Some v => Ok v
      | None => Raise (KeyError k)
      end
  | PDict _, KInt _ => Raise (KeyError k)
  | PList l, KInt i =>
      match seq_index l i with
      | Some v => Ok v
      | None => Raise IndexError
      end
  | PStr s, KInt i =>
      match seq_index (list_ascii_of_string s) i with
      | Some c => Ok (PStr (String c EmptyString))
      | None => Raise IndexError
      end
  | _, _ => Raise TypeError
  end.

Fixpoint is_prefix (p s : string) : bool :=
  match p, s with
  | EmptyString, _ => true
  | String a p', String b s' => Ascii.eqb a b && is_prefix p' s'
  | String _ _, EmptyString => false
  end.

Fixpoint is_substring (p s : string) : bool :=
  is_prefix p s ||
  match s with
  | EmptyString => false
  | String _ s' => is_substring p s'
  end.

(** [v == "k"] for a parsed value [v] *)
Definition eq_str (k : string) (v : pyval) : bool :=
  match v with
  | PStr s => String.eqb k s
  | _ => false
  end.

(** ["k" in o] *)
Definition py_contains (k : string) (o : pyval) : result bool :=
  match o with
  | PDict items => Ok (match lookup k items with Some _ => true | None => false end)
  | PList l => Ok (existsb (eq_str k) l)
  | PStr s => Ok (is_substring k s)
  | _ => Raise TypeError
  end.

(** The items a [for] loop visits. *)
Definition py_iter (o : pyval) : result (list pyval) :=
  match o with
  | PList l => Ok l
  | PDict items => Ok (map (fun kv => PStr (fst kv)) items)
  | PStr s => Ok (map (fun c => PStr (String c EmptyString)) (list_ascii_of_string s))
  | _ => Raise TypeError
  end.

(** [str.lower] on one character: A-Z and the Latin-1 capitals. *)
Definition lower_char (c : ascii) : ascii :=
  let n := nat_of_ascii c in
  if ((65 <=? n) && (n <=? 90))%nat then ascii_of_nat (n + 32)
  else if ((192 <=? n) && (n <=? 222) && negb (n =? 215))%nat then ascii_of_nat (n + 32)
  else c.

Fixpoint py_lower (s : string) : string :=
  match s with
  | EmptyString => EmptyString
  | String c s' => String (lower_char c) (py_lower s')
  end.

(** [str.isspace] on one character. *)
Definition py_isspace (c : ascii) : bool :=
  let n := nat_of_ascii c in
  (((9 <=? n) && (n <=? 13)) || ((28 <=? n) && (n <=? 32))
   || (n =? 133) || (n =? 160))%nat.

Fixpoint lstrip (s : string) : string :=
  match s with
  | EmptyString => EmptyString
  | String c s' => if py_isspace c then lstrip s' else s
  end.

Fixpoint rstrip (s : string) : string :=
  match s with
  | EmptyString => EmptyString
  | String c s' =>
      match rstrip s' with
      | EmptyString => if py_isspace c then EmptyString else String c EmptyString
      | t => String c t
      end
  end.

(** [s.strip()] *)
Definition py_strip (s : string) : string := rstrip (lstrip s).

(** [s.split(sep)] for a one-character separator. *)
Fixpoint py_split (sep : ascii) (s : string) : list string :=
  match s with
  | EmptyString => [EmptyString]
  | String c s' =>
      if Ascii.eqb c sep then EmptyString :: py_split sep s'
      else match py_split sep s' with
           | piece :: pieces => String c piece :: pieces
           | [] => [String c EmptyString]
           end
  end.

(** Method calls that exist on [str] only. *)
Definition str_lower (v : pyval) : result string :=
  match v with
  | PStr s => Ok (py_lower s)
  | _ => Raise AttributeError
  end.

Definition str_strip (v : pyval) : result string :=
  match v with
  | PStr s => Ok (py_strip s)
  | _ => Raise AttributeError
  end.

Definition str_split (sep : ascii) (v : pyval) : result (list string) :=
  match v with
  | PStr s => Ok (py_split sep s)
  | _ => Raise AttributeError
  end.

Definition in_list (s : string) (l : list string) : bool :=
  existsb (String.eqb s) l.

End Py.
Import Py.


(** ** The outside world: requests, responses, third-party services *)

(** What [requests.get] returns: [res.status_code] and [res.json()]. *)
Record response : Type := {
  status_code : Z;
  json : result pyval
}.

(** What [client.chat.completions.create] returns, seen through
    [completion.choices[i].message.content] (a [str] or [None]). *)
Record completion : Type := {
  choices : list (option string)
}.

Inductive call : Type :=
| HttpGet (url : string) (headers : list (string * string))
| ChatCreate (api_key model : string) (messages : list (string * pyval))
             (temperature : pyval).

(** A stub of the third-party services: its answer to each call (an
    exception for a transport or client failure). *)
Record upstream : Type := {
  requests_get : string -> list (string * string) -> result response;
  chat_completions_create :
    string -> string -> list (string * pyval) -> pyval -> result completion
}.

(** Flask's [request]: the query string and [request.json] (which raises
    when the body is not JSON). *)
Record request : Type := {
  args : list (string * string);
  request_json : result pyval
}.

(** [request.args.get(k)] *)
Fixpoint args_get (a : list (string * string)) (k : string) : pyval :=
  match a with
  | [] => PNone
  | (k', v) :: rest => if String.eqb k k' then PStr v else args_get rest k
  end.

(** What a view function returns: [jsonify(body)] or [jsonify(body), status]. *)
Record flask_response : Type := {
  body : pyval;
  status : Z
}.

Definition jsonify (v : pyval) : flask_response := {| body := v; status := 200 |}.
Definition jsonify_status (v : pyval) (code : Z) : flask_response :=
  {| body := v; status := code |}.

(** The process state: the module globals set at start-up, the outbound
    calls issued so far and the lines printed so far. *)
Record world : Type := {
  OPENAI_API_KEY : string;
  WEATHER_API_KEY : string;
  OPENTRIPMAP_API_KEY : string;
  calls : list call;
  stdout : list string
}.

Definition log_call (c : call) (w : world) : world :=
  {| OPENAI_API_KEY := OPENAI_API_KEY w;
     WEATHER_API_KEY := WEATHER_API_KEY w;
     OPENTRIPMAP_API_KEY := OPENTRIPMAP_API_KEY w;
     calls := calls w ++ [c];
     stdout := stdout w |}.

Definition log_line (l : string) (w : world) : world :=
  {| OPENAI_API_KEY := OPENAI_API_KEY w;
     WEATHER_API_KEY := WEATHER_API_KEY w;
     OPENTRIPMAP_API_KEY := OPENTRIPMAP_API_KEY w;
     calls := calls w;
     stdout := stdout w ++ [l] |}.

(** ** The monad of handler code *)

(** Code that may raise. *)
Definition M (A : Type) : Type := world -> result A * world.
(** Code that cannot (an [except Exception] arm, a whole view function). *)
Definition T (A : Type) : Type := world -> A * world.

Definition ret {A} (a : A) : M A := fun w => (Ok a, w).
Definition raise {A} (e : exn) : M A := fun w => (Raise e, w).
Definition bind {A B} (m : M A) (k : A -> M B) : M B :=
  fun w => match m w with
           | (Ok a, w') => k a w'
           | (Raise e, w') => (Raise e, w')
           end.
Definition lift {A} (r : result A) : M A := fun w => (r, w).
Definition total {A} (t : T A) : M A := fun w => let (a, w') := t w in (Ok a, w').

Declare Scope py_scope.
Delimit Scope py_scope with py.
Notation "x <- m ;; k" := (bind m (fun x => k))
  (at level 61, m at next level, right associativity) : py_scope.
Notation "m ;;; k" := (bind m (fun _ => k))
  (at level 61, right associativity) : py_scope.
Open Scope py_scope.

Declare Scope result_scope.
Delimit Scope result_scope with res.
Notation "x <- m ;; k" := (rbind m (fun x => k))
  (at level 61, m at next level, right associativity) : result_scope.

(** [try: m  except Exception as e: h e], inside code that may raise. *)
Definition try_except {A} (m : M A) (h : exn -> M A) : M A :=
  fun w => match m w with
           | (Ok a, w') => (Ok a, w')
           | (Raise e, w') => h e w'
           end.

(** The same at the top of a view function, whose handler returns. *)
Definition try_return {A} (m : M A) (h : exn -> T A) : T A :=
  fun w => match m w with
           | (Ok a, w') => (a, w')
           | (Raise e, w') => h e w'
           end.

Definition get_global (g : world -> string) : M string := fun w => (Ok (g w), w).

(** [print(a, b)] *)
Definition print (a b : string) : T unit :=
  fun w => (tt, log_line (a ++ " " ++ b) w).

(** [requests.get(url, headers=headers)] *)
Definition http_get (up : upstream) (url : string) (headers : list (string * string))
  : M response :=
  fun w => (requests_get up url headers, log_call (HttpGet url headers) w).

(** [client.chat.completions.create(model=..., messages=..., temperature=...)];
    [client] was built from [OPENAI_API_KEY]. *)
Definition chat_create (up : upstream) (model : string)
    (messages : list (string * pyval)) (temperature : pyval) : M completion :=
  fun w => (chat_completions_create up (OPENAI_API_KEY w) model messages temperature,
            log_call (ChatCreate (OPENAI_API_KEY w) model messages temperature) w).

(** [completion.choices[0].message.content] *)
Definition first_content (c : completion) : result pyval :=
  match choices c with
  | [] => Raise IndexError
  | Some s :: _ => Ok (PStr s)
  | None :: _ => Ok PNone
  end.

(** ** Stubs and sample requests *)

Module Sample.

(** A stub with fixed answers: [geo] to the geocoder (the request sent
    with a User-Agent header), [api] to the keyed services (weather,
    places), [plan] to the itinerary completion, [extract] to the
    city-extraction completion (the one at temperature 0). *)
Definition stub (geo api : result response) (plan extract : result completion)
  : upstream :=
  {| requests_get := fun _ headers =>
       match headers with
       | [] => api
       | _ :: _ => geo
       end;
     chat_completions_create := fun _ _ _ temperature =>
       match temperature with
       | PInt _ => extract
       | _ => plan
       end |}.

Definition http_ok (data : pyval) : result response :=
  Ok {| status_code := 200; json := Ok data |}.

Definition says (text : string) : result completion :=
  Ok {| choices := [Some text] |}.

Definition unreachable : exn := ExternalError "connection refused".

Definition get_request (query : list (string * string)) : request :=
  {| args := query; request_json := Raise (ExternalError "415 Unsupported Media Type") |}.

Definition post_request (payload : pyval) : request :=
  {| args := []; request_json := Ok payload |}.

Definition w0 : world :=
  {| OPENAI_API_KEY := "sk-test";
     WEATHER_API_KEY := "owm-test";
     OPENTRIPMAP_API_KEY := "otm-test";
     calls := [];
     stdout := [] |}.

Definition str_exn (e : exn) : string :=
  match e with
  | AttributeError => "AttributeError"
  | TypeError => "TypeError"
  | KeyError (KStr k) => "'" ++ k ++ "'"
  | KeyError (KInt i) => NilZero.string_of_int (Z.to_int i)
  | IndexError => "list index out of range"
  | ExternalError msg => msg
  end.

Definition py_repr (v : pyval) : string := "<repr>".

Definition place (props : list (string * pyval)) (lon lat : Z) : pyval :=
  PDict [("type", PStr "Feature");
         ("geometry", PDict [("type", PStr "Point");
                             ("coordinates", PList [PInt lon; PInt lat])]);
         ("properties", PDict props)].

Definition named (name : string) (lon lat : Z) : pyval :=
  place [("name", PStr name)] lon lat.

Definition feature_collection (places : list pyval) : pyval :=
  PDict [("type", PStr "FeatureCollection"); ("features", PList places)].

Definition paris : pyval :=
  PDict [("lat", PStr "48.8534951"); ("lon", PStr "2.3483915");
         ("display_name", PStr "Paris, Ile-de-France, France")].

Definition paris_weather : pyval :=
  PDict [("weather", PList [PDict [("description", PStr "clear sky")]]);
         ("main", PDict [("temp", PInt 18)]);
         ("name", PStr "Paris")].

(** A weather payload without "name". *)
Definition misty_fields : list (string * pyval) :=
  [("weather", PList [PDict [("description", PStr "mist")]]);
   ("main", PDict [("temp", PInt 7)])].

Definition six_places : list pyval :=
  [named "A" 2 48; named "B" 2 48; named "C" 2 48;
   named "D" 2 48; named "E" 2 48; named "F" 2 48].

(** Every service down. *)
Definition down : upstream :=
  stub (Raise unreachable) (Raise unreachable) (Raise unreachable) (Raise unreachable).

(** The language model answers; the geocoder knows no place. *)
Definition talkative : upstream :=
  stub (http_ok (PList [])) (Raise unreachable)
       (says "Hi! Where are you headed?") (says "Unknown").

(** The language model rejects the request. *)
Definition rejecting : upstream :=
  stub (Raise unreachable) (Raise unreachable)
       (Raise (ExternalError "Error code: 400 - invalid message content"))
       (Raise unreachable).

(** The itinerary call answers, the extraction call answers with blanks
    and the geocoder cannot be reached. *)
Definition blank_extraction : upstream :=
  stub (Raise unreachable) (Raise unreachable)
       (says "Day 1:
- Morning: Louvre")
       (says "  ").

Definition weather_up (data : pyval) : upstream :=
  stub (Raise unreachable) (http_ok data) (Raise unreachable) (Raise unreachable).

Definition hotels_up (places : list pyval) : upstream :=
  stub (http_ok (PList [paris])) (http_ok (feature_collection places))
       (Raise unreachable) (Raise unreachable).

Definition geocode_up (results : list pyval) : upstream :=
  stub (http_ok (PList results)) (Raise unreachable) (Raise unreachable) (Raise unreachable).

(** The same globals as [w0] after some traffic. *)
Definition w1 : world :=
  {| OPENAI_API_KEY := "sk-test";
     WEATHER_API_KEY := "owm-test";
     OPENTRIPMAP_API_KEY := "otm-test";
     calls := [HttpGet "http://api.openweathermap.org/data/2.5/weather?q=Oslo&appid=owm-test&units=metric" []];
     stdout := ["ERROR in /weather: connection refused"] |}.

Definition plan_text : string := "Day 1:
- Morning: Louvre".

(** The itinerary call answers; [geo] and [extract] are the answers of the
    geocoder and of the extraction call. *)
Definition chat_up (geo : result response) (extract : result completion) : upstream :=
  stub geo (Raise unreachable) (says plan_text) extract.

Definition trip : pyval := PDict [("message", PStr "Three days in Paris")].

Definition trip_messages (prompt : string) : list (string * pyval) :=
  [("system", PStr prompt); ("user", PStr "Three days in Paris")].

(** A geocoder result without display name. *)
Definition nameless_result : pyval :=
  PDict [("lat", PStr "48.8534951"); ("lon", PStr "2.3483915")].

(** A place without "geometry". *)
Definition no_geometry : pyval :=
  PDict [("type", PStr "Feature"); ("properties", PDict [("name", PStr "Hotel X")])].

Definition bad_gateway : result response :=
  Ok {| status_code := 502;
        json := Raise (ExternalError "Expecting value: line 1 column 1 (char 0)") |}.

Definition city_not_found : result response :=
  Ok {| status_code := 404;
        json := Ok (PDict [("cod", PStr "404"); ("message", PStr "city not found")]) |}.

Definition full_env : list (string * string) :=
  [("PATH", "/usr/bin"); ("OPENAI_API_KEY", "sk-test");
   ("WEATHER_API_KEY", "owm-test"); ("OPENTRIPMAP_API_KEY", "otm-test")].

(** A client constructor that succeeds, and one that rejects the proxy
    settings it finds. *)
Definition client_ok (api_key : string) : result unit := Ok tt.

Definition client_bad_proxy (api_key : string) : result unit :=
  Raise (ExternalError "Unknown scheme for proxy URL").

(** WEATHER_API_KEY set to the empty string, OPENTRIPMAP_API_KEY not set. *)
Definition env_without_weather : list (string * string) :=
  [("OPENAI_API_KEY", "sk-test"); ("WEATHER_API_KEY", EmptyString)].

End Sample.

(** ** The handlers *)

Definition system_prompt : string := "
You are a helpful AI travel buddy.
Answer concisely in short bullet points only.
Do NOT write long paragraphs or extra descriptions.
Do NOT use markdown, headings, or bold.
Follow this exact format:

Day 1:
- Morning: ...
- Afternoon: ...
- Evening: ...

Day 2:
- Morning: ...
- Afternoon: ...
- Evening: ...

Day 3:
- Morning: ...
- Afternoon: ...
- Evening: ...

Tips:
- Tip 1
- Tip 2

Keep all sentences to one line max. Only provide essential info for each time slot. No extra text.
".

Definition city_prompt : string :=
  "Extract only the main city name from this query. Reply with just the city, nothing else.".

Definition greeting_reply : string :=
  "Hello! I can help you plan trips. Where would you like to go?".

(** The Python float [0.7]: 6305039478318694 * 2^-53. *)
Definition temperature_0_7 : pyval := PFloat (S754_finite false 6305039478318694 (-53)).

Definition user_agent : list (string * string) := [("User-Agent", "travel-buddy")].

(** ** Start-up: the module body

    The three [os.getenv] reads, the three checks and
    [client = OpenAI(api_key=OPENAI_API_KEY)].  [environ] is the process
    environment after [load_dotenv()].  The constructor of the client is
    the library's: it returns the client or raises (it reads settings of
    its own, proxies among them), so its outcome is taken as a stub,
    [new_client], like the answers of the services. *)

(** [os.getenv(name)]: the value, or [None]. *)
Fixpoint os_getenv (environ : list (string * string)) (name : string) : option string :=
  match environ with
  | [] => None
  | (n, v) :: rest => if String.eqb name n then Some v else os_getenv rest name
  end.

(** [not KEY] for what [os.getenv] returned. *)
Definition not_set (v : option string) : bool :=
  match v with
  | None => true
  | Some s => String.eqb s EmptyString
  end.

Definition key_text (v : option string) : string :=
  match v with
  | Some s => s
  | None => EmptyString
  end.

(** How the module body ends: the app object exists with its globals;
    or one of the three checks raised [ValueError(message)]; or the
    constructor of the client raised.  The messages are the source's, their
    first character (U+274C) held as its UTF-8 bytes. *)
Inductive startup : Type :=
| Started (w : world)
| ValueError (message : string)
| ClientError (e : exn).

Definition module_body (new_client : string -> result unit)
    (environ : list (string * string)) : startup :=
  let openai_api_key := os_getenv environ "OPENAI_API_KEY" in
  let weather_api_key := os_getenv environ "WEATHER_API_KEY" in
  let opentripmap_api_key := os_getenv environ "OPENTRIPMAP_API_KEY" in
  if not_set openai_api_key then
    ValueError "❌ OPENAI_API_KEY not found in .env file"
  else if not_set weather_api_key then
    ValueError "❌ WEATHER_API_KEY not found in .env file"
  else if not_set opentripmap_api_key then
    ValueError "❌ OPENTRIPMAP_API_KEY not found in .env file"
  else
    match new_client (key_text openai_api_key) with
    | Raise e => ClientError e
    | Ok _ =>
        Started {| OPENAI_API_KEY := key_text openai_api_key;
                   WEATHER_API_KEY := key_text weather_api_key;
                   OPENTRIPMAP_API_KEY := key_text opentripmap_api_key;
                   calls := [];
                   stdout := [] |}
    end.

Section Handlers.

(** Python's [str(e)] of an exception and [str(v)] of a float, list or
    dict are the interpreter's; the handlers only pass them on. *)
Variable str_exn : exn -> string.
Variable py_repr : pyval -> string.

(** [f"{v}"] *)
Definition py_str (v : pyval) : string :=
  match v with
  | PStr s => s
  | PNone => "None"
  | PBool true => "True"
  | PBool false => "False"
  | PInt z => NilZero.string_of_int (Z.to_int z)
  | _ => py_repr v
  end.

(** [requests.get(url, headers=...).json()] *)
Definition http_get_json (up : upstream) (url : string)
    (headers : list (string * string)) : M pyval :=
  res <- http_get up url headers ;;
  lift (json res).

Definition nominatim_url (q : pyval) : string :=
  "https://nominatim.openstreetmap.org/search?format=json&q=" ++ py_str q.

(** [except Exception as e: print(tag, str(e)); return jsonify({"error": str(e)}), 500] *)
Definition error_500 (tag : string) (e : exn) : T flask_response :=
  fun w => let (_, w') := print tag (str_exn e) w in
           (jsonify_status (PDict [("error", PStr (str_exn e))]) 500, w').

(** *** /chat *)

(** [user_input and user_input.lower() in ["hi", "hello", "hey"]] *)
Definition is_greeting (user_input : pyval) : result bool :=
  if py_truthy user_input then
    rbind (str_lower user_input) (fun l => Ok (in_list l ["hi"; "hello"; "hey"]))
  else Ok false.

(** The first inner [try]: city detection with the model. *)
Definition detect_city (up : upstream) (user_input : pyval) : M pyval :=
  try_except
    (city_completion <-
       chat_create up "gpt-4o-mini"
         [("system", PStr city_prompt); ("user", user_input)] (PInt 0) ;;
     content <- lift (first_content city_completion) ;;
     city <- lift (str_strip content) ;;
     ret (PStr city))
    (fun e => total (print "OpenAI city extraction error:" (str_exn e)) ;;; ret PNone).

(** The second inner [try], run when [not city]. *)
Definition fallback_city (up : upstream) (user_input city : pyval) : M pyval :=
  try_except
    (geo_res <- http_get_json up (nominatim_url user_input) user_agent ;;
     if py_truthy geo_res then
       first <- lift (py_getitem geo_res (KInt 0)) ;;
       display_name <- lift (py_get first "display_name" (PStr EmptyString)) ;;
       if py_truthy display_name then
         pieces <- lift (str_split "," display_name) ;;
         match pieces with
         | piece :: _ => ret (PStr piece)
         | [] => raise IndexError
         end
       else ret PNone
     else ret city)
    (fun e => total (print "Fallback city detection error:" (str_exn e)) ;;; ret city).

Definition chat (up : upstream) (req : request) : T flask_response :=
  try_return
    (payload <- lift (request_json req) ;;
     user_input <- lift (py_get payload "message" PNone) ;;
     greeting <- lift (is_greeting user_input) ;;
     if greeting then
       ret (jsonify (PDict [("reply", PStr greeting_reply); ("city", PNone)]))
     else
       completion <-
         chat_create up "gpt-4o-mini"
           [("system", PStr system_prompt); ("user", user_input)] temperature_0_7 ;;
       reply <- lift (first_content completion) ;;
       city <- detect_city up user_input ;;
       city <- (if negb (py_truthy city) then fallback_city up user_input city
                else ret city) ;;
       ret (jsonify (PDict [("reply", reply); ("city", city)])))
    (error_500 "ERROR in /chat:").

(** *** /weather *)

Definition weather_url (city : pyval) (api_key : string) : string :=
  "http://api.openweathermap.org/data/2.5/weather?q=" ++ py_str city
  ++ "&appid=" ++ api_key ++ "&units=metric".

(** [res.status_code != 200 or "main" not in data] *)
Definition weather_not_found (res : response) (data : pyval) : result bool :=
  if negb (status_code res =? 200)%Z then Ok true
  else rbind (py_contains "main" data) (fun b => Ok (negb b)).

Definition weather (up : upstream) (req : request) : T flask_response :=
  let city := args_get (args req) "city" in
  if negb (py_truthy city) then
    fun w => (jsonify_status (PDict [("error", PStr "City is required")]) 400, w)
  else
    try_return
      (api_key <- get_global WEATHER_API_KEY ;;
       res <- http_get up (weather_url city api_key) [] ;;
       data <- lift (json res) ;;
       not_found <- lift (weather_not_found res data) ;;
       if not_found then
         ret (jsonify_status (PDict [("error", PStr "Weather not found")]) 404)
       else
         main <- lift (py_getitem data (KStr "main")) ;;
         temp <- lift (py_getitem main (KStr "temp")) ;;
         weather_list <- lift (py_getitem data (KStr "weather")) ;;
         weather0 <- lift (py_getitem weather_list (KInt 0)) ;;
         description <- lift (py_getitem weather0 (KStr "description")) ;;
         name <- lift (py_get data "name" city) ;;
         ret (jsonify (PDict [("temperature", temp);
                              ("condition", description);
                              ("city", name)])))
      (error_500 "ERROR in /weather:").

(** *** /hotels *)

Definition places_url (lat lon : pyval) (api_key : string) : string :=
  "https://api.opentripmap.com/0.1/en/places/radius?"
  ++ "radius=5000&lon=" ++ py_str lon ++ "&lat=" ++ py_str lat
  ++ "&kinds=accomodations&limit=5&apikey=" ++ api_key.

Definition booking_link (hotel_name city : pyval) : string :=
  "https://www.booking.com/searchresults.html?ss=" ++ py_str hotel_name ++ "+" ++ py_str city.

Definition google_maps_link (hotel_name city : pyval) : string :=
  "https://www.google.com/maps/search/" ++ py_str hotel_name ++ "+" ++ py_str city.

(** [coords1] is [coords[1]] (the latitude), [coords0] is [coords[0]]. *)
Definition map_link (coords1 coords0 : pyval) : string :=
  "https://www.openstreetmap.org/?mlat=" ++ py_str coords1 ++ "&mlon=" ++ py_str coords0
  ++ "#map=18/" ++ py_str coords1 ++ "/" ++ py_str coords0.

Definition hotel_dict (city hotel_name coords1 coords0 : pyval) : pyval :=
  PDict [("name", hotel_name);
         ("lat", coords1);
         ("lon", coords0);
         ("map_link", PStr (map_link coords1 coords0));
         ("booking_link", PStr (booking_link hotel_name city));
         ("google_maps_link", PStr (google_maps_link hotel_name city))].

(** One turn of the loop body: [None] is [continue], [Some h] is
    [hotels_list.append(h)]. *)
Definition hotel_of_place (city place : pyval) : result (option pyval) :=
  (props <- py_getitem place (KStr "properties") ;;
   geometry <- py_getitem place (KStr "geometry") ;;
   coords <- py_getitem geometry (KStr "coordinates") ;;
   hotel_name <- py_get props "name" (PStr "Unnamed") ;;
   if negb (py_truthy hotel_name) then Ok None
   else
     coords1 <- py_getitem coords (KInt 1) ;;
     coords0 <- py_getitem coords (KInt 0) ;;
     Ok (Some (hotel_dict city hotel_name coords1 coords0)))%res.

(** [for place in ...:] with the list built so far. *)
Fixpoint hotels_loop (city : pyval) (places : list pyval) (hotels_list : list pyval)
  : result (list pyval) :=
  match places with
  | [] => Ok hotels_list
  | place :: rest =>
      match hotel_of_place city place with
      | Raise e => Raise e
      | Ok None => hotels_loop city rest hotels_list
      | Ok (Some h) => hotels_loop city rest (hotels_list ++ [h])
      end
  end.

Definition hotels (up : upstream) (req : request) : T flask_response :=
  let city := args_get (args req) "city" in
  if negb (py_truthy city) then
    fun w => (jsonify_status (PDict [("error", PStr "City is required")]) 400, w)
  else
    try_return
      (nom_res <- http_get_json up (nominatim_url city) user_agent ;;
       if negb (py_truthy nom_res) then
         ret (jsonify_status (PDict [("error", PStr "City not found")]) 404)
       else
         nom0 <- lift (py_getitem nom_res (KInt 0)) ;;
         lat <- lift (py_getitem nom0 (KStr "lat")) ;;
         lon <- lift (py_getitem nom0 (KStr "lon")) ;;
         api_key <- get_global OPENTRIPMAP_API_KEY ;;
         places_res <- http_get_json up (places_url lat lon api_key) [] ;;
         features <- lift (py_get places_res "features" (PList [])) ;;
         places <- lift (py_iter features) ;;
         hotels_list <- lift (hotels_loop city places []) ;;
         ret (jsonify (PList hotels_list)))
      (error_500 "ERROR in /hotels:").

(** *** /geocode *)

Definition geocode (up : upstream) (req : request) : T flask_response :=
  let place := args_get (args req) "place" in
  if negb (py_truthy place) then
    fun w => (jsonify_status (PDict [("error", PStr "Place is required")]) 400, w)
  else
    try_return
      (res <- http_get_json up (nominatim_url place) user_agent ;;
       if py_truthy res then
         res0 <- lift (py_getitem res (KInt 0)) ;;
         name <- lift (py_get res0 "display_name" place) ;;
         lat <- lift (py_getitem res0 (KStr "lat")) ;;
         lon <- lift (py_getitem res0 (KStr "lon")) ;;
         ret (jsonify (PDict [("name", name); ("lat", lat); ("lon", lon)]))
       else
         ret (jsonify_status (PDict [("error", PStr "No results found")]) 404))
      (error_500 "ERROR in /geocode:").

(** *** The hotel list as the specification words it

    These follow the words of the specification of /hotels, to be compared
    with [hotels_loop]: a returned place is an object with "properties"
    (an object) and a "geometry" whose "coordinates" list starts with the
    longitude and the latitude; a place is listed under its name, or under
    "Unnamed" when it has no "name" key; each listed place gets an
    OpenStreetMap link on its coordinates and a booking and a maps search
    link on name+city. *)

Definition spec_place_parts (place : pyval) : option (option pyval * pyval * pyval) :=
  match place with
  | PDict fields =>
      match lookup "properties" fields, lookup "geometry" fields with
      | Some (PDict props), Some (PDict geometry) =>
          match lookup "coordinates" geometry with
          | Some (PList (lon :: lat :: _)) => Some (lookup "name" props, lat, lon)
          | _ => None
          end
      | _, _ => None
      end
  | _ => None
  end.

Definition spec_listed_name (name : option pyval) : pyval :=
  match name with
  | Some n => n
  | None => PStr "Unnamed"
  end.

Definition spec_entry (city name lat lon : pyval) : pyval :=
  PDict
    [("name", name);
     ("lat", lat);
     ("lon", lon);
     ("map_link",
       PStr ("https://www.openstreetmap.org/?mlat=" ++ py_str lat ++ "&mlon=" ++ py_str lon
             ++ "#map=18/" ++ py_str lat ++ "/" ++ py_str lon));
     ("booking_link",
       PStr ("https://www.booking.com/searchresults.html?ss="
             ++ py_str name ++ "+" ++ py_str city));
     ("google_maps_link",
       PStr ("https://www.google.com/maps/search/" ++ py_str name ++ "+" ++ py_str city))].

Fixpoint spec_entries (city : pyval) (places : list pyval) : list pyval :=
  match places with
  | [] => []
  | place :: rest =>
      match spec_place_parts place with
      | Some (name, lat, lon) =>
          if py_truthy (spec_listed_name name)
          then spec_entry city (spec_listed_name name) lat lon :: spec_entries city rest
          else spec_entries city rest
      | None => spec_entries city rest
      end
  end.

(** *** What a handler may depend on *)

(** Two process states with the same module globals; they may differ in
    the calls issued and the lines printed so far. *)
Definition same_globals (w1 w2 : world) : Prop :=
  OPENAI_API_KEY w1 = OPENAI_API_KEY w2
  /\ WEATHER_API_KEY w1 = WEATHER_API_KEY w2
  /\ OPENTRIPMAP_API_KEY w1 = OPENTRIPMAP_API_KEY w2.

(** A computation whose result depends on the globals only and which
    leaves the globals as they are. *)
Definition stateless {X : Type} (m : world -> X * world) : Prop :=
  (forall w1 w2, same_globals w1 w2 -> fst (m w1) = fst (m w2))
  /\ (forall w, same_globals w (snd (m w))).

(** Code that, when it returns a response, returns it with status [code]. *)
Definition returns_status (code : Z) (m : M flask_response) : Prop :=
  forall (w w' : world) (r : flask_response), m w = (Ok r, w') -> status r = code.

(** Code that does not raise. *)
Definition never_raises {A : Type} (m : M A) : Prop :=
  forall w, exists (a : A) (w' : world), m w = (Ok a, w').

(** The extraction step ends with nothing when the call fails, when it
    has no usable content, and when the content is blank. *)
Definition extraction_empty (extraction : result completion) : Prop :=
  match extraction with
  | Raise _ => True
  | Ok c =>
      match first_content c with
      | Ok (PStr s) => py_strip s = EmptyString
      | _ => True
      end
  end.

(** *** Outbound calls and response shapes *)

(** A computation that keeps the calls logged so far and adds at most [n]. *)
Definition emits_at_most {X : Type} (n : nat) (m : world -> X * world) : Prop :=
  forall w, exists new : list call,
    calls (snd (m w)) = (calls w ++ new)%list /\ length new <= n.

(** Code whose returned value, when it returns one, satisfies [P]. *)
Definition returns {A : Type} (P : A -> Prop) (m : M A) : Prop :=
  forall (w w' : world) (a : A), m w = (Ok a, w') -> P a.

(** The JSON error envelope with one of the given status codes. *)
Definition error_envelope (codes : list Z) (r : flask_response) : Prop :=
  exists msg : string, body r = PDict [("error", PStr msg)] /\ In (status r) codes.

(** A [str] or [None]. *)
Definition str_or_none (v : pyval) : Prop :=
  v = PNone \/ exists s : string, v = PStr s.

(** An entry of the /hotels list as a client reads it. *)
Definition hotel_entry (h : pyval) : Prop :=
  exists (name lat lon : pyval) (m b g : string),
    h = PDict [("name", name); ("lat", lat); ("lon", lon);
               ("map_link", PStr m); ("booking_link", PStr b);
               ("google_maps_link", PStr g)]
    /\ py_truthy name = true
    /\ is_prefix "https://www.openstreetmap.org/?mlat=" m = true
    /\ is_prefix "https://www.booking.com/searchresults.html?ss=" b = true
    /\ is_prefix "https://www.google.com/maps/search/" g = true.

(** The geocoder gives the fallback nothing to use: the call fails, the
    body is not JSON, or the parsed answer is falsy (no result). *)
Definition geocoder_finds_nothing (answer : result response) : Prop :=
  match answer with
  | Raise _ => True
  | Ok res =>
      match json res with
      | Raise _ => True
      | Ok v => py_truthy v = false
      end
  end.

(** The extraction step fails: the call raises, has no choice, or its
    content is [None]. *)
Definition extraction_fails (extraction : result completion) : Prop :=
  match extraction with
  | Raise _ => True
  | Ok c =>
      match first_content c with
      | Ok (PStr _) => False
      | _ => True
      end
  end.

(** ** Properties *)

(** *** Python helpers *)

Example lower_mixed_case : py_lower "HeLLo" = "hello".
Proof. reflexivity. Qed.

Example strip_both_ends : py_strip "  Paris 	" = "Paris".
Proof. reflexivity. Qed.

Example split_display_name :
  py_split "," "Paris, Ile-de-France, France" = ["Paris"; " Ile-de-France"; " France"].
Proof. reflexivity. Qed.

Example getitem_last : py_getitem (PList [PInt 1; PInt 2]) (KInt (-1)) = Ok (PInt 2).
Proof. reflexivity. Qed.

Lemma in_list_In (s : string) (l : list string) : in_list s l = true <-> In s l.
Proof.
  unfold in_list. rewrite existsb_exists. split.
  - intros [x [Hx Heq]]. apply String.eqb_eq in Heq. now subst.
  - intros H. exists s. split; [assumption | apply String.eqb_refl].
Qed.

Lemma append_assoc (s1 s2 s3 : string) : (s1 ++ s2) ++ s3 = s1 ++ (s2 ++ s3).
Proof. induction s1 as [|c s1 IH]; simpl; [reflexivity | now rewrite IH]. Qed.

Lemma py_lower_nonempty (s : string) : py_lower s <> EmptyString -> py_truthy (PStr s) = true.
Proof. destruct s; simpl; [congruence | reflexivity]. Qed.

Lemma py_split_nonempty (sep : ascii) (s : string) : py_split sep s <> [].
Proof.
  induction s as [|c s IH]; simpl; [discriminate|].
  destruct (Ascii.eqb c sep); [discriminate|].
  destruct (py_split sep s); discriminate.
Qed.

(** Unfolding of the monad operations, one step at a time. *)
Ltac run :=
  unfold try_return, try_except, bind, lift, ret, raise, total, get_global,
    http_get_json, http_get, chat_create, error_500, print; simpl.

(** *** /chat: greetings *)

(** C1 (as the code has it): a message whose lowercased text is "hi",
    "hello" or "hey" gets the fixed greeting with city null and status
    200, and the process state is untouched: no outbound call, nothing
    printed.  The message is not trimmed. *)
Theorem chat_greeting_lowercased (up : upstream) (req : request) (w : world)
    (payload : pyval) (msg : string) :
  request_json req = Ok payload ->
  py_get payload "message" PNone = Ok (PStr msg) ->
  In (py_lower msg) ["hi"; "hello"; "hey"] ->
  chat up req w =
    ({| body := PDict [("reply", PStr "Hello! I can help you plan trips. Where would you like to go?");
                       ("city", PNone)];
        status := 200 |}, w).
Proof.
  intros Hjson Hmsg Hin.
  assert (Htruthy : py_truthy (PStr msg) = true).
  { apply py_lower_nonempty. intros E. rewrite E in Hin.
    simpl in Hin. intuition discriminate. }
  apply in_list_In in Hin.
  unfold chat. run. rewrite Hjson, Hmsg.
  unfold is_greeting. rewrite Htruthy. cbn [rbind str_lower]. rewrite Hin. reflexivity.
Qed.

(** *** /weather: the presence check *)

(** C9: without a city parameter /weather answers 400 "City is required"
    and leaves the process state as it was: no outbound call is issued. *)
Theorem weather_city_absent (up : upstream) (req : request) (w : world) :
  args_get (args req) "city" = PNone ->
  weather up req w =
    ({| body := PDict [("error", PStr "City is required")]; status := 400 |}, w)
  /\ calls (snd (weather up req w)) = calls w.
Proof.
  intros Habsent. unfold weather. rewrite Habsent. simpl. split; reflexivity.
Qed.

(** *** /weather: the upstream answer *)

(** What the handler returns once the weather service has answered with
    a JSON object read in full. *)
Lemma weather_success (up : upstream) (req : request) (w : world)
    (res : response) (fields : list (string * pyval))
    (main temp weather_list weather0 description : pyval) :
  py_truthy (args_get (args req) "city") = true ->
  requests_get up (weather_url (args_get (args req) "city") (WEATHER_API_KEY w)) [] = Ok res ->
  json res = Ok (PDict fields) ->
  status_code res = 200%Z ->
  lookup "main" fields = Some main ->
  py_getitem main (KStr "temp") = Ok temp ->
  lookup "weather" fields = Some weather_list ->
  py_getitem weather_list (KInt 0) = Ok weather0 ->
  py_getitem weather0 (KStr "description") = Ok description ->
  fst (weather up req w) =
    jsonify (PDict [("temperature", temp);
                    ("condition", description);
                    ("city", match lookup "name" fields with
                             | Some name => name
                             | None => args_get (args req) "city"
                             end)]).
Proof.
  intros Hcity Hget Hjson Hstatus Hmain Htemp Hweather Hfirst Hdescr.
  unfold weather. rewrite Hcity. run. rewrite Hget, Hjson.
  unfold weather_not_found. rewrite Hstatus. simpl.
  rewrite Hmain. simpl. rewrite Htemp, Hweather, Hfirst, Hdescr.
  destruct (lookup "name" fields); reflexivity.
Qed.

(** C2 (as the code has it): with a city present and a JSON object as
    upstream answer, the handler returns 404 "Weather not found" when the
    status is not 200 or the object has no "main" key; 200 with
    temperature, description and city name when "main" is there and
    main.temp and weather[0].description can be read; and 500 with the
    error text when "main" is there and one of those reads fails. *)
Theorem weather_outcomes (up : upstream) (req : request) (w : world)
    (res : response) (fields : list (string * pyval)) :
  py_truthy (args_get (args req) "city") = true ->
  requests_get up (weather_url (args_get (args req) "city") (WEATHER_API_KEY w)) [] = Ok res ->
  json res = Ok (PDict fields) ->
  (status_code res <> 200%Z \/ lookup "main" fields = None ->
   fst (weather up req w) =
     {| body := PDict [("error", PStr "Weather not found")]; status := 404 |})
  /\
  (forall main : pyval,
     status_code res = 200%Z -> lookup "main" fields = Some main ->
     match (temp <- py_getitem main (KStr "temp") ;;
            weather_list <- py_getitem (PDict fields) (KStr "weather") ;;
            weather0 <- py_getitem weather_list (KInt 0) ;;
            description <- py_getitem weather0 (KStr "description") ;;
            Ok (temp, description))%res with
     | Ok (temp, description) =>
         fst (weather up req w) =
           {| body := PDict [("temperature", temp);
                             ("condition", description);
                             ("city", match lookup "name" fields with
                                      | Some name => name
                                      | None => args_get (args req) "city"
                                      end)];
              status := 200 |}
     | Raise e =>
         fst (weather up req w) =
           {| body := PDict [("error", PStr (str_exn e))]; status := 500 |}
     end).
Proof.
  intros Hcity Hget Hjson. split.
  - intros Hnot. unfold weather. rewrite Hcity. run. rewrite Hget, Hjson.
    unfold weather_not_found.
    destruct (status_code res =? 200)%Z eqn:Hs; simpl; [|reflexivity].
    destruct Hnot as [Hne | Hmain].
    + apply Z.eqb_eq in Hs. contradiction.
    + rewrite Hmain. reflexivity.
  - intros main Hstatus Hmain.
    unfold weather. rewrite Hcity. run. rewrite Hget, Hjson.
    unfold weather_not_found. rewrite Hstatus. simpl. rewrite Hmain. simpl.
    destruct (py_getitem main (KStr "temp")) as [temp|e]; simpl; [|reflexivity].
    destruct (lookup "weather" fields) as [weather_list|]; simpl; [|reflexivity].
    destruct (py_getitem weather_list (KInt 0)) as [weather0|e]; simpl; [|reflexivity].
    destruct (py_getitem weather0 (KStr "description")) as [description|e]; simpl;
      [|reflexivity].
    destruct (lookup "name" fields); reflexivity.
Qed.

(** C10: on a successful /weather answer whose payload has no "name"
    key, the returned city is the city string of the request. *)
Theorem weather_city_defaults_to_request (up : upstream) (req : request) (w : world)
    (res : response) (fields : list (string * pyval))
    (main temp weather_list weather0 description : pyval) :
  py_truthy (args_get (args req) "city") = true ->
  requests_get up (weather_url (args_get (args req) "city") (WEATHER_API_KEY w)) [] = Ok res ->
  json res = Ok (PDict fields) ->
  status_code res = 200%Z ->
  lookup "main" fields = Some main ->
  py_getitem main (KStr "temp") = Ok temp ->
  lookup "weather" fields = Some weather_list ->
  py_getitem weather_list (KInt 0) = Ok weather0 ->
  py_getitem weather0 (KStr "description") = Ok description ->
  lookup "name" fields = None ->
  status (fst (weather up req w)) = 200%Z /\
  py_getitem (body (fst (weather up req w))) (KStr "city") = Ok (args_get (args req) "city").
Proof.
  intros Hcity Hget Hjson Hstatus Hmain Htemp Hweather Hfirst Hdescr Hname.
  rewrite (weather_success up req w res fields main temp weather_list weather0 description)
    by assumption.
  rewrite Hname. split; reflexivity.
Qed.

(** *** /hotels *)

Lemma hotels_loop_length (city : pyval) (places : list pyval) :
  forall acc l : list pyval,
    hotels_loop city places acc = Ok l -> length l <= length acc + length places.
Proof.
  induction places as [|place rest IH]; intros acc l Hloop; simpl in Hloop.
  - injection Hloop as <-. simpl. lia.
  - destruct (hotel_of_place city place) as [[h|]|e]; [| |discriminate].
    + apply IH in Hloop. rewrite length_app in Hloop. simpl in *. lia.
    + apply IH in Hloop. simpl. lia.
Qed.

Lemma hotel_of_well_formed_place (city place : pyval) (name : option pyval) (lat lon : pyval) :
  spec_place_parts place = Some (name, lat, lon) ->
  hotel_of_place city place =
    Ok (if py_truthy (spec_listed_name name)
        then Some (spec_entry city (spec_listed_name name) lat lon)
        else None).
Proof.
  unfold spec_place_parts, hotel_of_place.
  destruct place as [| | | | |?|fields]; try discriminate.
  cbn [py_getitem rbind].
  destruct (lookup "properties" fields) as [[| | | | | |props]|]; try discriminate.
  destruct (lookup "geometry" fields) as [[| | | | | |geometry]|]; try discriminate.
  cbn [py_getitem rbind].
  destruct (lookup "coordinates" geometry) as [[| | | | |[|c0 [|c1 more]]|]|];
    try discriminate.
  intros H. injection H as <- <- <-.
  cbn [py_get rbind].
  destruct (lookup "name" props) as [n|]; cbn [spec_listed_name rbind];
    match goal with |- context [py_truthy ?v] => destruct (py_truthy v) end;
    reflexivity.
Qed.

Lemma hotels_loop_entries (city : pyval) (places : list pyval) :
  (forall place, In place places -> spec_place_parts place <> None) ->
  forall acc, hotels_loop city places acc = Ok (acc ++ spec_entries city places)%list.
Proof.
  induction places as [|place rest IH]; intros Hwf acc; simpl.
  - now rewrite app_nil_r.
  - destruct (spec_place_parts place) as [[[name lat] lon]|] eqn:Hparts.
    + rewrite (hotel_of_well_formed_place city place name lat lon Hparts).
      assert (Hrest : forall p, In p rest -> spec_place_parts p <> None)
        by (intros p Hp; apply Hwf; now right).
      destruct (py_truthy (spec_listed_name name)).
      * rewrite (IH Hrest). now rewrite <- app_assoc.
      * apply (IH Hrest).
    + exfalso. apply (Hwf place); [now left | assumption].
Qed.

(** Once the geocoder has located the city and the places service has
    answered with an object, the response is the outcome of the loop. *)
Lemma hotels_reaches_places (up : upstream) (req : request) (w : world)
    (geo places_answer : response) (nom_res nom0 lat lon places_res features : pyval)
    (places : list pyval) :
  py_truthy (args_get (args req) "city") = true ->
  requests_get up (nominatim_url (args_get (args req) "city")) user_agent = Ok geo ->
  json geo = Ok nom_res ->
  py_truthy nom_res = true ->
  py_getitem nom_res (KInt 0) = Ok nom0 ->
  py_getitem nom0 (KStr "lat") = Ok lat ->
  py_getitem nom0 (KStr "lon") = Ok lon ->
  requests_get up (places_url lat lon (OPENTRIPMAP_API_KEY w)) [] = Ok places_answer ->
  json places_answer = Ok places_res ->
  py_get places_res "features" (PList []) = Ok features ->
  py_iter features = Ok places ->
  fst (hotels up req w) =
    match hotels_loop (args_get (args req) "city") places [] with
    | Ok hotels_list => jsonify (PList hotels_list)
    | Raise e => jsonify_status (PDict [("error", PStr (str_exn e))]) 500
    end.
Proof.
  intros Hcity Hgeo Hnom Htruthy Hnom0 Hlat Hlon Hplaces Hres Hfeatures Hiter.
  unfold hotels. rewrite Hcity. run.
  rewrite Hgeo; simpl. rewrite Hnom, Htruthy; simpl.
  rewrite Hnom0, Hlat, Hlon, Hplaces; simpl.
  rewrite Hres, Hfeatures, Hiter.
  destruct (hotels_loop _ places []); reflexivity.
Qed.

(** C3 (as the code has it): when /hotels reaches the places step, the
    list it returns has no more entries than the upstream answer lists
    places.  The cap of 5 is the upstream's: the outbound request carries
    limit=5, and the list has at most 5 entries whenever the upstream
    answers with at most 5 places. *)
Theorem hotels_at_most_upstream_places (up : upstream) (req : request) (w : world)
    (geo places_answer : response) (nom_res nom0 lat lon places_res features : pyval)
    (places hotels_list : list pyval) :
  py_truthy (args_get (args req) "city") = true ->
  requests_get up (nominatim_url (args_get (args req) "city")) user_agent = Ok geo ->
  json geo = Ok nom_res ->
  py_truthy nom_res = true ->
  py_getitem nom_res (KInt 0) = Ok nom0 ->
  py_getitem nom0 (KStr "lat") = Ok lat ->
  py_getitem nom0 (KStr "lon") = Ok lon ->
  requests_get up (places_url lat lon (OPENTRIPMAP_API_KEY w)) [] = Ok places_answer ->
  json places_answer = Ok places_res ->
  py_get places_res "features" (PList []) = Ok features ->
  py_iter features = Ok places ->
  body (fst (hotels up req w)) = PList hotels_list ->
  length hotels_list <= length places
  /\ (length places <= 5 -> length hotels_list <= 5)
  /\ (exists before after : string,
        places_url lat lon (OPENTRIPMAP_API_KEY w) = before ++ "&limit=5&" ++ after).
Proof.
  intros Hcity Hgeo Hnom Htruthy Hnom0 Hlat Hlon Hplaces Hres Hfeatures Hiter Hbody.
  rewrite (hotels_reaches_places up req w geo places_answer nom_res nom0 lat lon
             places_res features places) in Hbody by assumption.
  assert (Hlen : length hotels_list <= length places).
  { destruct (hotels_loop _ places []) as [l|e] eqn:Hloop; simpl in Hbody.
    - injection Hbody as ->. apply hotels_loop_length in Hloop. simpl in Hloop. lia.
    - discriminate. }
  split; [exact Hlen|]. split; [lia|].
  exists ("https://api.opentripmap.com/0.1/en/places/radius?radius=5000&lon="
          ++ py_str lon ++ "&lat=" ++ py_str lat ++ "&kinds=accomodations"),
         ("apikey=" ++ OPENTRIPMAP_API_KEY w).
  unfold places_url. rewrite !append_assoc. reflexivity.
Qed.

(** C5 (as the code has it): when the places service answers with
    well-formed places, /hotels returns, in upstream order, one entry for
    each place whose name is non-empty, a place without a "name" key being
    listed as "Unnamed"; a place whose name is empty gets no entry.  Each
    entry's map_link is built from the place's coordinates, its
    booking_link and google_maps_link from the name and the request's
    city. *)
Theorem hotels_lists_named_places (up : upstream) (req : request) (w : world)
    (geo places_answer : response) (nom_res nom0 lat lon places_res : pyval)
    (places : list pyval) :
  py_truthy (args_get (args req) "city") = true ->
  requests_get up (nominatim_url (args_get (args req) "city")) user_agent = Ok geo ->
  json geo = Ok nom_res ->
  py_truthy nom_res = true ->
  py_getitem nom_res (KInt 0) = Ok nom0 ->
  py_getitem nom0 (KStr "lat") = Ok lat ->
  py_getitem nom0 (KStr "lon") = Ok lon ->
  requests_get up (places_url lat lon (OPENTRIPMAP_API_KEY w)) [] = Ok places_answer ->
  json places_answer = Ok places_res ->
  py_get places_res "features" (PList []) = Ok (PList places) ->
  (forall place, In place places -> spec_place_parts place <> None) ->
  fst (hotels up req w) =
    {| body := PList (spec_entries (args_get (args req) "city") places); status := 200 |}.
Proof.
  intros Hcity Hgeo Hnom Htruthy Hnom0 Hlat Hlon Hplaces Hres Hfeatures Hwf.
  rewrite (hotels_reaches_places up req w geo places_answer nom_res nom0 lat lon
             places_res (PList places) places) by (assumption || reflexivity).
  rewrite (hotels_loop_entries _ places Hwf []). reflexivity.
Qed.

(** *** /geocode *)

(** C7 (as the code has it): when the geocoder yields zero results
    /geocode answers 404 with an "error" field and no "name" field; when
    the result list is not empty and its first result is an object that
    has "lat" and "lon", it answers 200 with the first result's display
    name (the requested place when the result has none), lat and lon. *)
Theorem geocode_first_result_or_404 (up : upstream) (req : request) (w : world)
    (answer : response) (results : list pyval) :
  py_truthy (args_get (args req) "place") = true ->
  requests_get up (nominatim_url (args_get (args req) "place")) user_agent = Ok answer ->
  json answer = Ok (PList results) ->
  (results = [] ->
   status (fst (geocode up req w)) = 404%Z
   /\ body (fst (geocode up req w)) = PDict [("error", PStr "No results found")]
   /\ py_contains "error" (body (fst (geocode up req w))) = Ok true
   /\ py_contains "name" (body (fst (geocode up req w))) = Ok false)
  /\
  (forall (fields : list (string * pyval)) (rest : list pyval) (lat lon : pyval),
     results = PDict fields :: rest ->
     lookup "lat" fields = Some lat ->
     lookup "lon" fields = Some lon ->
     fst (geocode up req w) =
       {| body := PDict [("name", match lookup "display_name" fields with
                                  | Some display_name => display_name
                                  | None => args_get (args req) "place"
                                  end);
                         ("lat", lat);
                         ("lon", lon)];
          status := 200 |}).
Proof.
  intros Hplace Hget Hjson. split.
  - intros ->. unfold geocode. rewrite Hplace. run. rewrite Hget; simpl.
    rewrite Hjson. simpl. repeat split; reflexivity.
  - intros fields rest lat lon -> Hlat Hlon.
    unfold geocode. rewrite Hplace. run. rewrite Hget; simpl.
    rewrite Hjson. simpl. rewrite Hlat, Hlon.
    destruct (lookup "display_name" fields); reflexivity.
Qed.

(** *** No state carried from one request to the next *)

Lemma same_globals_refl (w : world) : same_globals w w.
Proof. repeat split. Qed.

Lemma same_globals_sym (w1 w2 : world) : same_globals w1 w2 -> same_globals w2 w1.
Proof. intros (H1 & H2 & H3). repeat split; congruence. Qed.

Lemma same_globals_trans (w1 w2 w3 : world) :
  same_globals w1 w2 -> same_globals w2 w3 -> same_globals w1 w3.
Proof. intros (H1 & H2 & H3) (H4 & H5 & H6). repeat split; congruence. Qed.

Lemma stateless_const {X : Type} (x : X) : stateless (fun w => (x, w)).
Proof. split; intros; [reflexivity | apply same_globals_refl]. Qed.

Lemma stateless_ret {A : Type} (a : A) : stateless (ret a).
Proof. apply stateless_const. Qed.

Lemma stateless_raise {A : Type} (e : exn) : stateless (@raise A e).
Proof. apply stateless_const. Qed.

Lemma stateless_lift {A : Type} (r : result A) : stateless (lift r).
Proof. apply stateless_const. Qed.

Lemma stateless_print (a b : string) : stateless (print a b).
Proof. split; intros; [reflexivity | repeat split]. Qed.

Lemma stateless_get_weather_key : stateless (get_global WEATHER_API_KEY).
Proof.
  split; [|intros; apply same_globals_refl].
  intros w1 w2 (_ & H & _). unfold get_global. simpl. now rewrite H.
Qed.

Lemma stateless_get_places_key : stateless (get_global OPENTRIPMAP_API_KEY).
Proof.
  split; [|intros; apply same_globals_refl].
  intros w1 w2 (_ & _ & H). unfold get_global. simpl. now rewrite H.
Qed.

Lemma stateless_http_get (up : upstream) (url : string) (headers : list (string * string)) :
  stateless (http_get up url headers).
Proof. split; intros; [reflexivity | repeat split]. Qed.

Lemma stateless_chat_create (up : upstream) (model : string)
    (messages : list (string * pyval)) (temperature : pyval) :
  stateless (chat_create up model messages temperature).
Proof.
  split; [|intros; repeat split].
  intros w1 w2 (H & _ & _). unfold chat_create. simpl. now rewrite H.
Qed.

(** The two runs of a stateless computation end in states with the same
    globals. *)
Lemma stateless_after {X : Type} (m : world -> X * world) (w1 w2 : world) :
  stateless m -> same_globals w1 w2 -> same_globals (snd (m w1)) (snd (m w2)).
Proof.
  intros [_ Hkeep] Hsame.
  apply same_globals_trans with w2; [|apply Hkeep].
  apply same_globals_trans with w1; [|assumption].
  apply same_globals_sym, Hkeep.
Qed.

Lemma stateless_bind {A B : Type} (m : M A) (k : A -> M B) :
  stateless m -> (forall a, stateless (k a)) -> stateless (bind m k).
Proof.
  intros Hm Hk. split.
  - intros w1 w2 Hsame. unfold bind.
    pose proof (proj1 Hm w1 w2 Hsame) as Hres.
    pose proof (stateless_after m w1 w2 Hm Hsame) as Hnext.
    destruct (m w1) as [r1 w1'], (m w2) as [r2 w2']. simpl in Hres, Hnext. subst r2.
    destruct r1 as [a|e]; [|reflexivity].
    apply (proj1 (Hk a)), Hnext.
  - intros w. unfold bind.
    pose proof (proj2 Hm w) as Hfirst.
    destruct (m w) as [[a|e] w']; simpl in Hfirst; [|exact Hfirst].
    apply same_globals_trans with w'; [assumption | apply (proj2 (Hk a))].
Qed.

Lemma stateless_try_except {A : Type} (m : M A) (h : exn -> M A) :
  stateless m -> (forall e, stateless (h e)) -> stateless (try_except m h).
Proof.
  intros Hm Hh. split.
  - intros w1 w2 Hsame. unfold try_except.
    pose proof (proj1 Hm w1 w2 Hsame) as Hres.
    pose proof (stateless_after m w1 w2 Hm Hsame) as Hnext.
    destruct (m w1) as [r1 w1'], (m w2) as [r2 w2']. simpl in Hres, Hnext. subst r2.
    destruct r1 as [a|e]; [reflexivity|].
    apply (proj1 (Hh e)), Hnext.
  - intros w. unfold try_except.
    pose proof (proj2 Hm w) as Hfirst.
    destruct (m w) as [[a|e] w']; simpl in Hfirst; [exact Hfirst|].
    apply same_globals_trans with w'; [assumption | apply (proj2 (Hh e))].
Qed.

Lemma stateless_try_return {A : Type} (m : M A) (h : exn -> T A) :
  stateless m -> (forall e, stateless (h e)) -> stateless (try_return m h).
Proof.
  intros Hm Hh. split.
  - intros w1 w2 Hsame. unfold try_return.
    pose proof (proj1 Hm w1 w2 Hsame) as Hres.
    pose proof (stateless_after m w1 w2 Hm Hsame) as Hnext.
    destruct (m w1) as [r1 w1'], (m w2) as [r2 w2']. simpl in Hres, Hnext. subst r2.
    destruct r1 as [a|e]; [reflexivity|].
    apply (proj1 (Hh e)), Hnext.
  - intros w. unfold try_return.
    pose proof (proj2 Hm w) as Hfirst.
    destruct (m w) as [[a|e] w']; simpl in Hfirst; [exact Hfirst|].
    apply same_globals_trans with w'; [assumption | apply (proj2 (Hh e))].
Qed.

Lemma stateless_total {A : Type} (t : T A) : stateless t -> stateless (total t).
Proof.
  intros [Hres Hkeep]. split.
  - intros w1 w2 Hsame. unfold total. specialize (Hres w1 w2 Hsame).
    destruct (t w1), (t w2). simpl in *. now subst.
  - intros w. unfold total. specialize (Hkeep w). now destruct (t w).
Qed.

Lemma stateless_error_500 (tag : string) (e : exn) : stateless (error_500 tag e).
Proof. split; intros; [reflexivity | repeat split]. Qed.

Create HintDb stateless.
#[local] Hint Resolve stateless_const stateless_ret stateless_raise stateless_lift
  stateless_print stateless_get_weather_key stateless_get_places_key
  stateless_http_get stateless_chat_create stateless_total stateless_error_500
  : stateless.

(** Walks through a handler: a bind splits, a test is decided both ways. *)
Ltac stateless_walk :=
  repeat first
    [ apply stateless_try_return; [|intros ?]
    | apply stateless_try_except; [|intros ?]
    | apply stateless_bind; [|intros ?]
    | match goal with
      | |- stateless (if ?b then _ else _) => destruct b
      | |- stateless (match ?x with _ => _ end) => destruct x
      end
    | solve [auto with stateless] ].

Lemma weather_stateless (up : upstream) (req : request) : stateless (weather up req).
Proof. unfold weather, http_get_json. cbv zeta. stateless_walk. Qed.

Lemma geocode_stateless (up : upstream) (req : request) : stateless (geocode up req).
Proof. unfold geocode, http_get_json. cbv zeta. stateless_walk. Qed.

Lemma hotels_stateless (up : upstream) (req : request) : stateless (hotels up req).
Proof. unfold hotels, http_get_json. cbv zeta. stateless_walk. Qed.

Lemma chat_stateless (up : upstream) (req : request) : stateless (chat up req).
Proof.
  unfold chat, detect_city, fallback_city, http_get_json. stateless_walk.
Qed.

(** C8: /weather and /geocode are deterministic and keep no state.  With
    the same request and the same stub, the response (body and status) is
    the same from any two process states that agree on the start-up
    globals, whatever was called or printed before; in particular a
    request repeated right after itself gets the same response. *)
Theorem weather_geocode_deterministic (up : upstream) (req : request) (w : world) :
  (forall w' : world, same_globals w w' ->
     fst (weather up req w') = fst (weather up req w)
     /\ fst (geocode up req w') = fst (geocode up req w))
  /\ fst (weather up req (snd (weather up req w))) = fst (weather up req w)
  /\ fst (geocode up req (snd (geocode up req w))) = fst (geocode up req w).
Proof.
  pose proof (weather_stateless up req) as [Hw Hwkeep].
  pose proof (geocode_stateless up req) as [Hg Hgkeep].
  split; [|split].
  - intros w' Hsame. split; symmetry; auto.
  - symmetry. apply Hw, Hwkeep.
  - symmetry. apply Hg, Hgkeep.
Qed.

(** *** Presence checks *)

Lemma returns_status_ret (code : Z) (r : flask_response) :
  status r = code -> returns_status code (ret r).
Proof. intros Hr w w' r' H. injection H as <- _. exact Hr. Qed.

Lemma returns_status_bind {A : Type} (code : Z) (m : M A) (k : A -> M flask_response) :
  (forall a, returns_status code (k a)) -> returns_status code (bind m k).
Proof.
  intros Hk w w' r. unfold bind.
  destruct (m w) as [[a|e] w1]; [apply Hk | discriminate].
Qed.

Lemma try_return_status (m : M flask_response) (tag : string) (w : world) :
  returns_status 200 m ->
  status (fst (try_return m (error_500 tag) w)) = 200%Z
  \/ status (fst (try_return m (error_500 tag) w)) = 500%Z.
Proof.
  intros Hm. unfold try_return.
  destruct (m w) as [[r|e] w'] eqn:Hrun; simpl.
  - left. exact (Hm w w' r Hrun).
  - right. reflexivity.
Qed.

Lemma chat_status (up : upstream) (req : request) (w : world) :
  status (fst (chat up req w)) = 200%Z \/ status (fst (chat up req w)) = 500%Z.
Proof.
  unfold chat. apply try_return_status.
  apply returns_status_bind; intros payload.
  apply returns_status_bind; intros user_input.
  apply returns_status_bind; intros greeting.
  destruct greeting; [now apply returns_status_ret|].
  repeat (apply returns_status_bind; intros ?).
  now apply returns_status_ret.
Qed.

(** C4 (as the code has it): /weather (city), /hotels (city) and
    /geocode (place) check that their required parameter is present before
    anything else and answer 400 with an error message when it is missing,
    the process state untouched.  /chat has no such check: its status is
    200 or 500, never 400. *)
Theorem presence_checks (up : upstream) (req : request) (w : world) :
  (args_get (args req) "city" = PNone ->
   weather up req w =
     ({| body := PDict [("error", PStr "City is required")]; status := 400 |}, w))
  /\ (args_get (args req) "city" = PNone ->
      hotels up req w =
        ({| body := PDict [("error", PStr "City is required")]; status := 400 |}, w))
  /\ (args_get (args req) "place" = PNone ->
      geocode up req w =
        ({| body := PDict [("error", PStr "Place is required")]; status := 400 |}, w))
  /\ (status (fst (chat up req w)) = 200%Z \/ status (fst (chat up req w)) = 500%Z).
Proof.
  repeat split.
  - intros H. unfold weather. now rewrite H.
  - intros H. unfold hotels. now rewrite H.
  - intros H. unfold geocode. now rewrite H.
  - apply chat_status.
Qed.

(** *** /chat: the best-effort steps *)

Lemma detect_city_never_raises (up : upstream) (user_input : pyval) :
  never_raises (detect_city up user_input).
Proof.
  intros w. unfold detect_city, try_except.
  match goal with |- context [match ?m w with _ => _ end] => destruct (m w) as [[a|e] w'] end.
  - now exists a, w'.
  - run. eauto.
Qed.

Lemma fallback_city_never_raises (up : upstream) (user_input city : pyval) :
  never_raises (fallback_city up user_input city).
Proof.
  intros w. unfold fallback_city, try_except.
  match goal with |- context [match ?m w with _ => _ end] => destruct (m w) as [[a|e] w'] end.
  - now exists a, w'.
  - run. eauto.
Qed.

(** Once the itinerary call has produced a reply, the response is 200
    with that reply, whatever the city steps do. *)
Lemma chat_best_effort_steps_swallowed (up : upstream) (req : request) (w : world)
    (payload user_input reply : pyval) (itinerary : completion) :
  request_json req = Ok payload ->
  py_get payload "message" PNone = Ok user_input ->
  is_greeting user_input = Ok false ->
  chat_completions_create up (OPENAI_API_KEY w) "gpt-4o-mini"
    [("system", PStr system_prompt); ("user", user_input)] temperature_0_7 = Ok itinerary ->
  first_content itinerary = Ok reply ->
  exists city : pyval,
    fst (chat up req w) = {| body := PDict [("reply", reply); ("city", city)]; status := 200 |}.
Proof.
  intros Hjson Hmsg Hgreet Hplan Hreply.
  unfold chat, try_return, bind at 1 2 3. unfold lift at 1 2 3.
  rewrite Hjson, Hmsg, Hgreet.
  unfold bind at 1. unfold chat_create at 1. cbn [OPENAI_API_KEY log_call].
  rewrite Hplan. unfold bind at 1, lift at 1. rewrite Hreply.
  unfold bind at 1.
  match goal with |- context [detect_city up user_input ?w1] =>
    destruct (detect_city_never_raises up user_input w1) as (city & w2 & ->) end.
  unfold bind at 1.
  destruct (py_truthy city); cbn [negb].
  - exists city. reflexivity.
  - match goal with |- context [fallback_city up user_input city ?w1] =>
      destruct (fallback_city_never_raises up user_input city w1) as (city' & w3 & ->) end.
    exists city'. reflexivity.
Qed.

(** The fallback asks the geocoder for the raw message and keeps the
    leading comma-separated token of the first result's display name. *)
Lemma fallback_city_leading_token (up : upstream) (user_input city : pyval) (w : world)
    (answer : response) (fields : list (string * pyval)) (rest : list pyval)
    (display_name : string) :
  requests_get up (nominatim_url user_input) user_agent = Ok answer ->
  json answer = Ok (PList (PDict fields :: rest)) ->
  lookup "display_name" fields = Some (PStr display_name) ->
  display_name <> EmptyString ->
  fallback_city up user_input city w =
    (Ok (PStr (hd EmptyString (py_split "," display_name))),
     log_call (HttpGet (nominatim_url user_input) user_agent) w).
Proof.
  intros Hget Hjson Hname Hne.
  unfold fallback_city. run. rewrite Hget; simpl. rewrite Hjson; simpl.
  rewrite Hname.
  destruct display_name as [|c d]; [congruence|]. simpl.
  pose proof (py_split_nonempty "," d) as Hsplit.
  destruct (Ascii.eqb c ","); [reflexivity|].
  destruct (py_split "," d); [congruence | reflexivity].
Qed.

Lemma detect_city_empty (up : upstream) (user_input : pyval) (w : world) :
  extraction_empty
    (chat_completions_create up (OPENAI_API_KEY w) "gpt-4o-mini"
       [("system", PStr city_prompt); ("user", user_input)] (PInt 0)) ->
  exists w' : world,
    OPENAI_API_KEY w' = OPENAI_API_KEY w
    /\ (detect_city up user_input w = (Ok PNone, w')
        \/ detect_city up user_input w = (Ok (PStr EmptyString), w')).
Proof.
  unfold extraction_empty, detect_city. run.
  destruct (chat_completions_create up _ _ _ _) as [c|e]; simpl.
  - destruct (first_content c) as [[| | | |s| |]|e]; simpl; intros H;
      try (eexists; split; [|left; reflexivity]; reflexivity).
    rewrite H. eexists; split; [|right; reflexivity]; reflexivity.
  - intros _. eexists; split; [|left; reflexivity]; reflexivity.
Qed.

(** When the extraction step ends with nothing and the geocoder knows
    the place, /chat answers with the leading comma-separated token of the
    first result's display name as city. *)
Lemma chat_falls_back_to_geocoder (up : upstream) (req : request) (w : world)
    (payload user_input reply : pyval) (itinerary : completion)
    (answer : response) (fields : list (string * pyval)) (rest : list pyval)
    (display_name : string) :
  request_json req = Ok payload ->
  py_get payload "message" PNone = Ok user_input ->
  is_greeting user_input = Ok false ->
  chat_completions_create up (OPENAI_API_KEY w) "gpt-4o-mini"
    [("system", PStr system_prompt); ("user", user_input)] temperature_0_7 = Ok itinerary ->
  first_content itinerary = Ok reply ->
  extraction_empty
    (chat_completions_create up (OPENAI_API_KEY w) "gpt-4o-mini"
       [("system", PStr city_prompt); ("user", user_input)] (PInt 0)) ->
  requests_get up (nominatim_url user_input) user_agent = Ok answer ->
  json answer = Ok (PList (PDict fields :: rest)) ->
  lookup "display_name" fields = Some (PStr display_name) ->
  display_name <> EmptyString ->
  fst (chat up req w) =
    {| body := PDict [("reply", reply);
                      ("city", PStr (hd EmptyString (py_split "," display_name)))];
       status := 200 |}.
Proof.
  intros Hjson Hmsg Hgreet Hplan Hreply Hextract Hget Hanswer Hname Hne.
  unfold chat, try_return, bind at 1 2 3. unfold lift at 1 2 3.
  rewrite Hjson, Hmsg, Hgreet.
  unfold bind at 1. unfold chat_create at 1. cbn [OPENAI_API_KEY log_call].
  rewrite Hplan. unfold bind at 1, lift at 1. rewrite Hreply.
  unfold bind at 1.
  match goal with |- context [detect_city up user_input ?w1] =>
    destruct (detect_city_empty up user_input w1 Hextract) as (w2 & _ & [-> | ->]) end;
    unfold bind at 1; cbn [py_truthy String.eqb negb];
    rewrite (fallback_city_leading_token up user_input _ w2 answer fields rest display_name)
      by assumption;
    reflexivity.
Qed.

(** *** Outbound calls *)

Lemma emits_const {X : Type} (n : nat) (x : X) : emits_at_most n (fun w => (x, w)).
Proof. intros w. exists []. simpl. rewrite app_nil_r. split; [reflexivity | lia]. Qed.

Lemma emits_ret {A : Type} (n : nat) (a : A) : emits_at_most n (ret a).
Proof. apply emits_const. Qed.

Lemma emits_raise {A : Type} (n : nat) (e : exn) : emits_at_most n (@raise A e).
Proof. apply emits_const. Qed.

Lemma emits_lift {A : Type} (n : nat) (r : result A) : emits_at_most n (lift r).
Proof. apply emits_const. Qed.

Lemma emits_get_global (n : nat) (g : world -> string) : emits_at_most n (get_global g).
Proof. intros w. exists []. simpl. rewrite app_nil_r. split; [reflexivity | lia]. Qed.

Lemma emits_print (n : nat) (a b : string) : emits_at_most n (print a b).
Proof. intros w. exists []. simpl. rewrite app_nil_r. split; [reflexivity | lia]. Qed.

Lemma emits_error_500 (n : nat) (tag : string) (e : exn) : emits_at_most n (error_500 tag e).
Proof. intros w. exists []. simpl. rewrite app_nil_r. split; [reflexivity | lia]. Qed.

Lemma emits_http_get (n : nat) (up : upstream) (url : string)
    (headers : list (string * string)) :
  emits_at_most (S n) (http_get up url headers).
Proof. intros w. exists [HttpGet url headers]. simpl. split; [reflexivity | lia]. Qed.

Lemma emits_chat_create (n : nat) (up : upstream) (model : string)
    (messages : list (string * pyval)) (temperature : pyval) :
  emits_at_most (S n) (chat_create up model messages temperature).
Proof.
  intros w. exists [ChatCreate (OPENAI_API_KEY w) model messages temperature].
  simpl. split; [reflexivity | lia].
Qed.

Lemma emits_total {A : Type} (n : nat) (t : T A) :
  emits_at_most n t -> emits_at_most n (total t).
Proof.
  intros Ht w. destruct (Ht w) as (new & Hnew & Hlen). exists new.
  unfold total. destruct (t w). simpl in *. auto.
Qed.

(** Sequencing adds the budgets. *)
Lemma emits_bind {A B : Type} (n1 n2 : nat) (m : M A) (k : A -> M B) :
  emits_at_most n1 m -> (forall a, emits_at_most n2 (k a)) ->
  emits_at_most (n1 + n2) (bind m k).
Proof.
  intros Hm Hk w. unfold bind.
  destruct (Hm w) as (new1 & Hnew1 & Hlen1).
  destruct (m w) as [[a|e] w1]; simpl in Hnew1.
  - destruct (Hk a w1) as (new2 & Hnew2 & Hlen2).
    exists (new1 ++ new2)%list. rewrite Hnew2, Hnew1, <- app_assoc, length_app.
    split; [reflexivity | lia].
  - exists new1. simpl. split; [assumption | lia].
Qed.

Lemma emits_bind_silent {A B : Type} (n : nat) (m : M A) (k : A -> M B) :
  emits_at_most 0 m -> (forall a, emits_at_most n (k a)) -> emits_at_most n (bind m k).
Proof. intros Hm Hk. exact (emits_bind 0 n m k Hm Hk). Qed.

Lemma emits_bind_one {A B : Type} (n : nat) (m : M A) (k : A -> M B) :
  emits_at_most 1 m -> (forall a, emits_at_most n (k a)) ->
  emits_at_most (S n) (bind m k).
Proof. intros Hm Hk. exact (emits_bind 1 n m k Hm Hk). Qed.

(** An [except] arm that calls nobody keeps the budget of its [try]. *)
Lemma emits_try_except {A : Type} (n : nat) (m : M A) (h : exn -> M A) :
  emits_at_most n m -> (forall e, emits_at_most 0 (h e)) ->
  emits_at_most n (try_except m h).
Proof.
  intros Hm Hh w. unfold try_except.
  destruct (Hm w) as (new1 & Hnew1 & Hlen1).
  destruct (m w) as [[a|e] w1]; simpl in Hnew1.
  - exists new1. simpl. auto.
  - destruct (Hh e w1) as (new2 & Hnew2 & Hlen2).
    exists (new1 ++ new2)%list. rewrite Hnew2, Hnew1, <- app_assoc, length_app.
    split; [reflexivity | lia].
Qed.

Lemma emits_try_return {A : Type} (n : nat) (m : M A) (h : exn -> T A) :
  emits_at_most n m -> (forall e, emits_at_most 0 (h e)) ->
  emits_at_most n (try_return m h).
Proof.
  intros Hm Hh w. unfold try_return.
  destruct (Hm w) as (new1 & Hnew1 & Hlen1).
  destruct (m w) as [[a|e] w1]; simpl in Hnew1.
  - exists new1. simpl. auto.
  - destruct (Hh e w1) as (new2 & Hnew2 & Hlen2).
    exists (new1 ++ new2)%list. rewrite Hnew2, Hnew1, <- app_assoc, length_app.
    split; [reflexivity | lia].
Qed.

Lemma emits_http_get_json (n : nat) (up : upstream) (url : string)
    (headers : list (string * string)) :
  emits_at_most (S n) (http_get_json up url headers).
Proof.
  unfold http_get_json. apply emits_bind_one.
  - apply emits_http_get.
  - intros res. apply emits_lift.
Qed.

Create HintDb emits.
#[local] Hint Resolve emits_const emits_ret emits_raise emits_lift emits_get_global
  emits_print emits_error_500 emits_http_get emits_chat_create emits_total
  emits_http_get_json : emits.

(** Walks through a handler, charging each call to the budget. *)
Ltac emits_walk :=
  repeat first
    [ solve [auto with emits]
    | apply emits_try_return; [|intros ?]
    | apply emits_try_except; [|intros ?]
    | apply emits_bind_silent; [solve [auto with emits] | intros ?]
    | apply emits_bind_one; [|intros ?]
    | match goal with
      | |- emits_at_most _ (if ?b then _ else _) => destruct b
      | |- emits_at_most _ (match ?x with _ => _ end) => destruct x
      end ].

Lemma detect_city_emits (n : nat) (up : upstream) (user_input : pyval) :
  emits_at_most (S n) (detect_city up user_input).
Proof. unfold detect_city. emits_walk. Qed.

Lemma fallback_city_emits (n : nat) (up : upstream) (user_input city : pyval) :
  emits_at_most (S n) (fallback_city up user_input city).
Proof. unfold fallback_city. emits_walk. Qed.

#[local] Hint Resolve detect_city_emits fallback_city_emits : emits.

(** X1: no handler drops a call from the log, and each has a budget of
    outbound calls it never exceeds, whatever the services answer: three
    for /chat, one for /weather, two for /hotels, one for /geocode. *)
Theorem outbound_call_budget (up : upstream) (req : request) :
  emits_at_most 3 (chat up req)
  /\ emits_at_most 1 (weather up req)
  /\ emits_at_most 2 (hotels up req)
  /\ emits_at_most 1 (geocode up req).
Proof.
  split; [|split; [|split]].
  - unfold chat. emits_walk.
  - unfold weather. cbv zeta. emits_walk.
  - unfold hotels. cbv zeta. emits_walk.
  - unfold geocode. cbv zeta. emits_walk.
Qed.

(** *** Response shapes *)

Lemma returns_ret {A : Type} (P : A -> Prop) (a : A) : P a -> returns P (ret a).
Proof. intros Ha w w' a' H. injection H as <- _. exact Ha. Qed.

Lemma returns_lift {A : Type} (P : A -> Prop) (r : result A) :
  (forall a, r = Ok a -> P a) -> returns P (lift r).
Proof. intros Hr w w' a H. injection H as -> _. now apply Hr. Qed.

(** What the first step is known to return may be used by the rest. *)
Lemma returns_bind_with {A B : Type} (Q : A -> Prop) (P : B -> Prop)
    (m : M A) (k : A -> M B) :
  returns Q m -> (forall a, Q a -> returns P (k a)) -> returns P (bind m k).
Proof.
  intros Hm Hk w w' b. unfold bind.
  destruct (m w) as [[a|e] w1] eqn:Hrun; [|discriminate].
  apply Hk. exact (Hm w w1 a Hrun).
Qed.

Lemma returns_bind {A B : Type} (P : B -> Prop) (m : M A) (k : A -> M B) :
  (forall a, returns P (k a)) -> returns P (bind m k).
Proof.
  intros Hk. apply returns_bind_with with (Q := fun _ => True).
  - intros w w' a _. exact I.
  - intros a _. apply Hk.
Qed.

Lemma returns_try_except {A : Type} (P : A -> Prop) (m : M A) (h : exn -> M A) :
  returns P m -> (forall e, returns P (h e)) -> returns P (try_except m h).
Proof.
  intros Hm Hh w w' a. unfold try_except.
  destruct (m w) as [[a1|e] w1] eqn:Hrun.
  - intros H. injection H as <- _. exact (Hm w w1 a1 Hrun).
  - apply Hh.
Qed.

Lemma try_return_shape {A : Type} (P : A -> Prop) (m : M A) (h : exn -> T A) (w : world) :
  returns P m -> (forall e w1, P (fst (h e w1))) -> P (fst (try_return m h w)).
Proof.
  intros Hm Hh. unfold try_return.
  destruct (m w) as [[a|e] w1] eqn:Hrun; [exact (Hm w w1 a Hrun) | apply Hh].
Qed.

Lemma error_500_envelope (codes : list Z) (tag : string) (e : exn) (w : world) :
  In 500%Z codes -> error_envelope codes (fst (error_500 tag e w)).
Proof. intros Hin. exists (str_exn e). split; [reflexivity | exact Hin]. Qed.

Ltac returns_walk :=
  repeat first
    [ apply returns_bind; intros ?
    | match goal with
      | |- returns _ (if ?b then _ else _) => destruct b
      end ].

Lemma first_content_str_or_none (c : completion) (v : pyval) :
  first_content c = Ok v -> str_or_none v.
Proof.
  unfold first_content. destruct (choices c) as [|[s|] rest]; intros H; try discriminate;
    injection H as <-; [right; now exists s | now left].
Qed.

Lemma detect_city_returns (up : upstream) (user_input : pyval) :
  returns str_or_none (detect_city up user_input).
Proof.
  unfold detect_city. apply returns_try_except.
  - returns_walk. apply returns_ret. right. eauto.
  - intros e. returns_walk. apply returns_ret. now left.
Qed.

Lemma fallback_city_returns (up : upstream) (user_input city : pyval) :
  str_or_none city -> returns str_or_none (fallback_city up user_input city).
Proof.
  intros Hcity. unfold fallback_city. apply returns_try_except.
  - apply returns_bind; intros geo_res.
    destruct (py_truthy geo_res); [|now apply returns_ret].
    apply returns_bind; intros first.
    apply returns_bind; intros display_name.
    destruct (py_truthy display_name); [|apply returns_ret; now left].
    apply returns_bind; intros pieces.
    destruct pieces as [|piece pieces].
    + intros w w' a H. discriminate.
    + apply returns_ret. right. eauto.
  - intros e. returns_walk. now apply returns_ret.
Qed.

(** X2: a /chat answer is either 200 with exactly the fields reply and
    city, each a string or null, or the error envelope with status 500. *)
Theorem chat_response_shape (up : upstream) (req : request) (w : world) :
  (status (fst (chat up req w)) = 200%Z
   /\ exists reply city : pyval,
        body (fst (chat up req w)) = PDict [("reply", reply); ("city", city)]
        /\ str_or_none reply /\ str_or_none city)
  \/ error_envelope [500%Z] (fst (chat up req w)).
Proof.
  unfold chat.
  apply (try_return_shape
           (fun r => (status r = 200%Z
                      /\ exists reply city : pyval,
                           body r = PDict [("reply", reply); ("city", city)]
                           /\ str_or_none reply /\ str_or_none city)
                     \/ error_envelope [500%Z] r)).
  - apply returns_bind; intros payload.
    apply returns_bind; intros user_input.
    apply returns_bind; intros greeting.
    destruct greeting.
    + apply returns_ret. left. split; [reflexivity|].
      exists (PStr greeting_reply), PNone.
      split; [reflexivity|]. split; [right; eauto | now left].
    + apply returns_bind; intros completion.
      apply returns_bind_with with (Q := str_or_none).
      { apply returns_lift. apply first_content_str_or_none. }
      intros reply Hreply.
      apply returns_bind_with with (Q := str_or_none).
      { apply detect_city_returns. }
      intros city Hcity.
      apply returns_bind_with with (Q := str_or_none).
      { destruct (negb (py_truthy city));
          [now apply fallback_city_returns | now apply returns_ret]. }
      intros city' Hcity'.
      apply returns_ret. left. split; [reflexivity|].
      exists reply, city'. auto.
  - intros e w1. right. apply error_500_envelope. now left.
Qed.

(** X3: a /weather answer is either 200 with exactly the fields
    temperature, condition and city, or the error envelope with status
    400, 404 or 500. *)
Theorem weather_response_shape (up : upstream) (req : request) (w : world) :
  (status (fst (weather up req w)) = 200%Z
   /\ exists temp description name : pyval,
        body (fst (weather up req w))
        = PDict [("temperature", temp); ("condition", description); ("city", name)])
  \/ error_envelope [400%Z; 404%Z; 500%Z] (fst (weather up req w)).
Proof.
  unfold weather. cbv zeta.
  destruct (negb (py_truthy (args_get (args req) "city"))).
  - right. exists "City is required". simpl. auto.
  - apply (try_return_shape
             (fun r => (status r = 200%Z
                        /\ exists temp description name : pyval,
                             body r = PDict [("temperature", temp);
                                             ("condition", description); ("city", name)])
                       \/ error_envelope [400%Z; 404%Z; 500%Z] r)).
    + returns_walk; apply returns_ret.
      * right. exists "Weather not found". simpl. auto.
      * left. split; [reflexivity | do 3 eexists; reflexivity].
    + intros e w1. right. apply error_500_envelope. simpl. auto.
Qed.

(** X4: a /geocode answer is either 200 with exactly the fields name,
    lat and lon, or the error envelope with status 400, 404 or 500. *)
Theorem geocode_response_shape (up : upstream) (req : request) (w : world) :
  (status (fst (geocode up req w)) = 200%Z
   /\ exists name lat lon : pyval,
        body (fst (geocode up req w)) = PDict [("name", name); ("lat", lat); ("lon", lon)])
  \/ error_envelope [400%Z; 404%Z; 500%Z] (fst (geocode up req w)).
Proof.
  unfold geocode. cbv zeta.
  destruct (negb (py_truthy (args_get (args req) "place"))).
  - right. exists "Place is required". simpl. auto.
  - apply (try_return_shape
             (fun r => (status r = 200%Z
                        /\ exists name lat lon : pyval,
                             body r = PDict [("name", name); ("lat", lat); ("lon", lon)])
                       \/ error_envelope [400%Z; 404%Z; 500%Z] r)).
    + returns_walk; apply returns_ret.
      * left. split; [reflexivity | do 3 eexists; reflexivity].
      * right. exists "No results found". simpl. auto.
    + intros e w1. right. apply error_500_envelope. simpl. auto.
Qed.

Lemma hotel_of_place_entry (city place h : pyval) :
  hotel_of_place city place = Ok (Some h) -> hotel_entry h.
Proof.
  unfold hotel_of_place.
  destruct (py_getitem place (KStr "properties")) as [props|]; [|discriminate].
  destruct (py_getitem place (KStr "geometry")) as [geometry|]; [|discriminate].
  cbn [rbind].
  destruct (py_getitem geometry (KStr "coordinates")) as [coords|]; [|discriminate].
  cbn [rbind].
  destruct (py_get props "name" (PStr "Unnamed")) as [hotel_name|]; [|discriminate].
  cbn [rbind].
  destruct (py_truthy hotel_name) eqn:Hname; [|discriminate]. cbn [negb].
  destruct (py_getitem coords (KInt 1)) as [coords1|]; [|discriminate].
  destruct (py_getitem coords (KInt 0)) as [coords0|]; [|discriminate].
  cbn [rbind]. intros H. injection H as <-.
  exists hotel_name, coords1, coords0, (map_link coords1 coords0),
    (booking_link hotel_name city), (google_maps_link hotel_name city).
  repeat split; try reflexivity. exact Hname.
Qed.

Lemma hotels_loop_entries_shape (city : pyval) (places : list pyval) :
  forall acc l : list pyval,
    Forall hotel_entry acc -> hotels_loop city places acc = Ok l -> Forall hotel_entry l.
Proof.
  induction places as [|place rest IH]; intros acc l Hacc Hloop; simpl in Hloop.
  - injection Hloop as <-. exact Hacc.
  - destruct (hotel_of_place city place) as [[h|]|e] eqn:Hplace; [| |discriminate].
    + apply (IH (acc ++ [h])%list l); [|exact Hloop].
      apply Forall_app. split; [exact Hacc|].
      constructor; [|constructor]. exact (hotel_of_place_entry city place h Hplace).
    + exact (IH acc l Hacc Hloop).
Qed.

(** X5: a /hotels answer is either 200 with a list whose every entry has
    the fields name, lat, lon, map_link, booking_link and google_maps_link,
    a non-empty name and links that start with the OpenStreetMap, booking
    and maps search addresses, or the error envelope with status 400, 404
    or 500.  This holds for any upstream answer, well formed or not. *)
Theorem hotels_response_shape (up : upstream) (req : request) (w : world) :
  (status (fst (hotels up req w)) = 200%Z
   /\ exists hotels_list : list pyval,
        body (fst (hotels up req w)) = PList hotels_list
        /\ Forall hotel_entry hotels_list)
  \/ error_envelope [400%Z; 404%Z; 500%Z] (fst (hotels up req w)).
Proof.
  unfold hotels. cbv zeta.
  destruct (negb (py_truthy (args_get (args req) "city"))).
  - right. exists "City is required". simpl. auto.
  - apply (try_return_shape
             (fun r => (status r = 200%Z
                        /\ exists hotels_list : list pyval,
                             body r = PList hotels_list /\ Forall hotel_entry hotels_list)
                       \/ error_envelope [400%Z; 404%Z; 500%Z] r)).
    + apply returns_bind; intros nom_res.
      destruct (negb (py_truthy nom_res)).
      * apply returns_ret. right. exists "City not found". simpl. auto.
      * apply returns_bind; intros nom0.
        apply returns_bind; intros lat.
        apply returns_bind; intros lon.
        apply returns_bind; intros api_key.
        apply returns_bind; intros places_res.
        apply returns_bind; intros features.
        apply returns_bind; intros places.
        apply returns_bind_with
          with (Q := fun l : list pyval => Forall hotel_entry l).
        { apply returns_lift. intros l Hloop.
          exact (hotels_loop_entries_shape _ places [] l (Forall_nil _) Hloop). }
        intros hotels_list Hentries.
        apply returns_ret. left. split; [reflexivity|]. now exists hotels_list.
    + intros e w1. right. apply error_500_envelope. simpl. auto.
Qed.

(** *** Start-up *)

Lemma not_set_false (v : option string) :
  not_set v = false <-> exists k : string, v = Some k /\ k <> EmptyString.
Proof.
  destruct v as [k|]; simpl.
  - rewrite String.eqb_neq. split.
    + intros H. now exists k.
    + intros (k' & Hk & Hne). now injection Hk as ->.
  - split; [discriminate | intros (k & H & _); discriminate].
Qed.

(** X6: the module body ends with a running app exactly when the three
    keys are set and not empty and the constructor of the client returns;
    the app then holds these three values as its globals and has called
    nobody and printed nothing.  It ends with the constructor's exception
    exactly when the three keys are set and not empty and the constructor,
    given the OpenAI key, raises it. *)
Theorem module_body_started (new_client : string -> result unit)
    (environ : list (string * string)) :
  (forall w : world,
     module_body new_client environ = Started w
     <-> exists k1 k2 k3 : string,
           os_getenv environ "OPENAI_API_KEY" = Some k1 /\ k1 <> EmptyString
           /\ os_getenv environ "WEATHER_API_KEY" = Some k2 /\ k2 <> EmptyString
           /\ os_getenv environ "OPENTRIPMAP_API_KEY" = Some k3 /\ k3 <> EmptyString
           /\ new_client k1 = Ok tt
           /\ w = {| OPENAI_API_KEY := k1; WEATHER_API_KEY := k2;
                     OPENTRIPMAP_API_KEY := k3; calls := []; stdout := [] |})
  /\
  (forall e : exn,
     module_body new_client environ = ClientError e
     <-> exists k1 k2 k3 : string,
           os_getenv environ "OPENAI_API_KEY" = Some k1 /\ k1 <> EmptyString
           /\ os_getenv environ "WEATHER_API_KEY" = Some k2 /\ k2 <> EmptyString
           /\ os_getenv environ "OPENTRIPMAP_API_KEY" = Some k3 /\ k3 <> EmptyString
           /\ new_client k1 = Raise e).
Proof.
  unfold module_body. cbv zeta. split; intros x; split.
  - destruct (not_set (os_getenv environ "OPENAI_API_KEY")) eqn:H1; [discriminate|].
    destruct (not_set (os_getenv environ "WEATHER_API_KEY")) eqn:H2; [discriminate|].
    destruct (not_set (os_getenv environ "OPENTRIPMAP_API_KEY")) eqn:H3; [discriminate|].
    apply not_set_false in H1, H2, H3.
    destruct H1 as (k1 & -> & N1), H2 as (k2 & -> & N2), H3 as (k3 & -> & N3).
    simpl. destruct (new_client k1) as [[]|e] eqn:Hclient; [|discriminate].
    intros H. injection H as <-. exists k1, k2, k3. repeat split; assumption.
  - intros (k1 & k2 & k3 & -> & N1 & -> & N2 & -> & N3 & Hclient & ->).
    apply String.eqb_neq in N1, N2, N3. simpl. now rewrite N1, N2, N3, Hclient.
  - destruct (not_set (os_getenv environ "OPENAI_API_KEY")) eqn:H1; [discriminate|].
    destruct (not_set (os_getenv environ "WEATHER_API_KEY")) eqn:H2; [discriminate|].
    destruct (not_set (os_getenv environ "OPENTRIPMAP_API_KEY")) eqn:H3; [discriminate|].
    apply not_set_false in H1, H2, H3.
    destruct H1 as (k1 & -> & N1), H2 as (k2 & -> & N2), H3 as (k3 & -> & N3).
    simpl. destruct (new_client k1) as [[]|e] eqn:Hclient; [discriminate|].
    intros H. injection H as <-. exists k1, k2, k3. repeat split; assumption.
  - intros (k1 & k2 & k3 & -> & N1 & -> & N2 & -> & N3 & Hclient).
    apply String.eqb_neq in N1, N2, N3. simpl. now rewrite N1, N2, N3, Hclient.
Qed.

(** X7: one of the three key checks raises its ValueError exactly when a
    key is missing or empty, whatever the constructor of the client would
    do: the message is the one of the first such key in the order
    OPENAI_API_KEY, WEATHER_API_KEY, OPENTRIPMAP_API_KEY. *)
Theorem module_body_refuses (new_client : string -> result unit)
    (environ : list (string * string)) (message : string) :
  module_body new_client environ = ValueError message
  <-> (not_set (os_getenv environ "OPENAI_API_KEY") = true
       /\ message = "❌ OPENAI_API_KEY not found in .env file")
      \/ (not_set (os_getenv environ "OPENAI_API_KEY") = false
          /\ not_set (os_getenv environ "WEATHER_API_KEY") = true
          /\ message = "❌ WEATHER_API_KEY not found in .env file")
      \/ (not_set (os_getenv environ "OPENAI_API_KEY") = false
          /\ not_set (os_getenv environ "WEATHER_API_KEY") = false
          /\ not_set (os_getenv environ "OPENTRIPMAP_API_KEY") = true
          /\ message = "❌ OPENTRIPMAP_API_KEY not found in .env file").
Proof.
  unfold module_body. cbv zeta.
  destruct (not_set (os_getenv environ "OPENAI_API_KEY"));
    [|destruct (not_set (os_getenv environ "WEATHER_API_KEY"));
      [|destruct (not_set (os_getenv environ "OPENTRIPMAP_API_KEY"));
        [|destruct (new_client _) as [[]|e]]]];
    (split;
     [ intros H; try discriminate; injection H as <-; auto 6
     | intros [(H & Hm) | [(H1 & H & Hm) | (H1 & H2 & H & Hm)]];
       try discriminate; now subst ]).
Qed.

(** *** /chat: what reaches the language model *)

(** X8: when the body cannot be read as JSON, or is not an object,
    /chat answers 500 with the error text and calls nobody. *)
Theorem chat_unreadable_body_is_500 (up : upstream) (req : request) (w : world) (e : exn) :
  (payload <- request_json req ;; py_get payload "message" PNone)%res = Raise e ->
  chat up req w =
    ({| body := PDict [("error", PStr (str_exn e))]; status := 500 |},
     log_line ("ERROR in /chat: " ++ str_exn e) w).
Proof.
  intros H. unfold chat. run.
  destruct (request_json req) as [payload|e1]; simpl in H.
  - rewrite H. reflexivity.
  - injection H as ->. reflexivity.
Qed.

(** X9: a message that is truthy and not a string (a number, true, a
    non-empty list or object) stops at the greeting test: /chat answers
    500 with the AttributeError's text and calls nobody. *)
Theorem chat_non_string_message_is_500 (up : upstream) (req : request) (w : world)
    (payload user_input : pyval) :
  request_json req = Ok payload ->
  py_get payload "message" PNone = Ok user_input ->
  py_truthy user_input = true ->
  (forall s : string, user_input <> PStr s) ->
  chat up req w =
    ({| body := PDict [("error", PStr (str_exn AttributeError))]; status := 500 |},
     log_line ("ERROR in /chat: " ++ str_exn AttributeError) w).
Proof.
  intros Hjson Hmsg Htruthy Hnot. unfold chat. run. rewrite Hjson, Hmsg.
  unfold is_greeting. rewrite Htruthy.
  destruct user_input; try reflexivity. now destruct (Hnot s).
Qed.

(** The greeting test passes exactly on a string that lowercases to one
    of the three greetings. *)
Lemma is_greeting_true (v : pyval) :
  is_greeting v = Ok true <-> exists s, v = PStr s /\ In (py_lower s) ["hi"; "hello"; "hey"].
Proof.
  unfold is_greeting. split.
  - destruct (py_truthy v); [|discriminate].
    destruct v; try discriminate. cbn [str_lower rbind].
    intros H.
    assert (Hin : in_list (py_lower s) ["hi"; "hello"; "hey"] = true) by congruence.
    apply in_list_In in Hin. eauto.
  - intros (s & -> & Hin).
    rewrite py_lower_nonempty.
    + cbn [str_lower rbind]. apply in_list_In in Hin. now rewrite Hin.
    + intros E. rewrite E in Hin. simpl in Hin. intuition discriminate.
Qed.

(** The steps after the itinerary call, with their two calls at most. *)
Lemma chat_rest_emits (up : upstream) (user_input : pyval) (itinerary : completion) :
  emits_at_most 2
    (try_return
       (reply <- lift (first_content itinerary) ;;
        city <- detect_city up user_input ;;
        city <- (if negb (py_truthy city) then fallback_city up user_input city
                 else ret city) ;;
        ret (jsonify (PDict [("reply", reply); ("city", city)])))
       (error_500 "ERROR in /chat:")).
Proof. emits_walk. Qed.

(** X10: every message that passes the greeting test as no greeting is
    sent to the language model first: the first new outbound call is the
    completion request with model gpt-4o-mini, the system prompt, the
    message as user content and temperature 0.7; at most two calls follow. *)
Theorem chat_non_greeting_calls_model (up : upstream) (req : request) (w : world)
    (payload user_input : pyval) :
  request_json req = Ok payload ->
  py_get payload "message" PNone = Ok user_input ->
  is_greeting user_input = Ok false ->
  exists more : list call,
    calls (snd (chat up req w))
    = (calls w ++ ChatCreate (OPENAI_API_KEY w) "gpt-4o-mini"
                    [("system", PStr system_prompt); ("user", user_input)]
                    temperature_0_7 :: more)%list
    /\ length more <= 2.
Proof.
  intros Hjson Hmsg Hgreet.
  unfold chat, try_return, bind at 1 2 3. unfold lift at 1 2 3.
  rewrite Hjson, Hmsg, Hgreet.
  unfold bind at 1. unfold chat_create at 1.
  destruct (chat_completions_create up _ _ _ _) as [itinerary|e].
  - match goal with |- context [log_call ?c w] => set (w1 := log_call c w) end.
    destruct (chat_rest_emits up user_input itinerary w1) as (more & Hmore & Hlen).
    exists more. split; [|exact Hlen].
    unfold try_return in Hmore. rewrite Hmore. unfold w1. simpl.
    now rewrite <- app_assoc.
  - exists []. simpl. split; [reflexivity | lia].
Qed.

(** X11: when the itinerary call fails, /chat answers 500 with the
    error text after that one call; the city steps do not run. *)
Theorem chat_itinerary_failure_is_500 (up : upstream) (req : request) (w : world)
    (payload user_input : pyval) (e : exn) :
  request_json req = Ok payload ->
  py_get payload "message" PNone = Ok user_input ->
  is_greeting user_input = Ok false ->
  chat_completions_create up (OPENAI_API_KEY w) "gpt-4o-mini"
    [("system", PStr system_prompt); ("user", user_input)] temperature_0_7 = Raise e ->
  chat up req w =
    ({| body := PDict [("error", PStr (str_exn e))]; status := 500 |},
     log_line ("ERROR in /chat: " ++ str_exn e)
       (log_call (ChatCreate (OPENAI_API_KEY w) "gpt-4o-mini"
                    [("system", PStr system_prompt); ("user", user_input)]
                    temperature_0_7) w)).
Proof.
  intros Hjson Hmsg Hgreet Hplan. unfold chat. run.
  rewrite Hjson, Hmsg, Hgreet. simpl. rewrite Hplan. reflexivity.
Qed.

(** X12: when the extraction call returns text that is not blank, the
    city is that text stripped and the geocoder is not asked: the two
    completion requests are the only outbound calls. *)
Theorem chat_extracted_city_skips_geocoder (up : upstream) (req : request) (w : world)
    (payload user_input reply : pyval) (itinerary extraction : completion)
    (text : string) :
  request_json req = Ok payload ->
  py_get payload "message" PNone = Ok user_input ->
  is_greeting user_input = Ok false ->
  chat_completions_create up (OPENAI_API_KEY w) "gpt-4o-mini"
    [("system", PStr system_prompt); ("user", user_input)] temperature_0_7 = Ok itinerary ->
  first_content itinerary = Ok reply ->
  chat_completions_create up (OPENAI_API_KEY w) "gpt-4o-mini"
    [("system", PStr city_prompt); ("user", user_input)] (PInt 0) = Ok extraction ->
  first_content extraction = Ok (PStr text) ->
  py_strip text <> EmptyString ->
  chat up req w =
    ({| body := PDict [("reply", reply); ("city", PStr (py_strip text))]; status := 200 |},
     log_call (ChatCreate (OPENAI_API_KEY w) "gpt-4o-mini"
                 [("system", PStr city_prompt); ("user", user_input)] (PInt 0))
       (log_call (ChatCreate (OPENAI_API_KEY w) "gpt-4o-mini"
                    [("system", PStr system_prompt); ("user", user_input)]
                    temperature_0_7) w)).
Proof.
  intros Hjson Hmsg Hgreet Hplan Hreply Hextract Htext Hne.
  apply String.eqb_neq in Hne.
  unfold chat, detect_city. run.
  rewrite Hjson, Hmsg, Hgreet. simpl. rewrite Hplan. simpl. rewrite Hreply.
  rewrite Hextract. simpl. rewrite Htext. simpl. rewrite Hne. reflexivity.
Qed.

(** *** /chat: the city *)

(** The first piece of a split has no separator in it and is the whole
    string or what comes before its first separator. *)
Lemma py_split_head (sep : ascii) (s : string) :
  exists (piece : string) (pieces : list string),
    py_split sep s = piece :: pieces
    /\ ~ In sep (list_ascii_of_string piece)
    /\ (s = piece \/ exists rest : string, s = piece ++ String sep rest).
Proof.
  induction s as [|c s (piece & pieces & Hsplit & Hno & Hshape)]; simpl.
  - exists EmptyString, []. split; [reflexivity|]. split; [intros []|now left].
  - destruct (Ascii.eqb c sep) eqn:Hc.
    + apply Ascii.eqb_eq in Hc. subst c.
      exists EmptyString, (py_split sep s). split; [reflexivity|].
      split; [intros []|]. right. now exists s.
    + rewrite Hsplit. exists (String c piece), pieces. split; [reflexivity|].
      apply Ascii.eqb_neq in Hc. split.
      * simpl. intros [E | Hin]; [now apply Hc | now apply Hno].
      * destruct Hshape as [-> | (rest & ->)]; [now left|].
        right. now exists rest.
Qed.

(** X13: when the extraction step ends with nothing and the geocoder's
    first result has a display name, the city of the answer is the display
    name up to its first comma: it holds no comma, and the display name is
    the city itself or the city, a comma and a rest. *)
Theorem chat_fallback_city_is_leading_token (up : upstream) (req : request) (w : world)
    (payload user_input reply : pyval) (itinerary : completion)
    (answer : response) (fields : list (string * pyval)) (rest : list pyval)
    (display_name : string) :
  request_json req = Ok payload ->
  py_get payload "message" PNone = Ok user_input ->
  is_greeting user_input = Ok false ->
  chat_completions_create up (OPENAI_API_KEY w) "gpt-4o-mini"
    [("system", PStr system_prompt); ("user", user_input)] temperature_0_7 = Ok itinerary ->
  first_content itinerary = Ok reply ->
  extraction_empty
    (chat_completions_create up (OPENAI_API_KEY w) "gpt-4o-mini"
       [("system", PStr city_prompt); ("user", user_input)] (PInt 0)) ->
  requests_get up (nominatim_url user_input) user_agent = Ok answer ->
  json answer = Ok (PList (PDict fields :: rest)) ->
  lookup "display_name" fields = Some (PStr display_name) ->
  display_name <> EmptyString ->
  exists city : string,
    fst (chat up req w)
    = {| body := PDict [("reply", reply); ("city", PStr city)]; status := 200 |}
    /\ ~ In ","%char (list_ascii_of_string city)
    /\ (display_name = city
        \/ exists tail : string, display_name = city ++ String ","%char tail).
Proof.
  intros Hjson Hmsg Hgreet Hplan Hreply Hextract Hget Hanswer Hname Hne.
  destruct (py_split_head "," display_name) as (piece & pieces & Hsplit & Hno & Hshape).
  exists piece. split; [|split; assumption].
  rewrite (chat_falls_back_to_geocoder up req w payload user_input reply itinerary
             answer fields rest display_name) by assumption.
  now rewrite Hsplit.
Qed.

Lemma fallback_city_without_display_name (up : upstream) (user_input city : pyval)
    (w : world) (answer : response) (fields : list (string * pyval)) (rest : list pyval)
    (display_name : pyval) :
  requests_get up (nominatim_url user_input) user_agent = Ok answer ->
  json answer = Ok (PList (PDict fields :: rest)) ->
  py_get (PDict fields) "display_name" (PStr EmptyString) = Ok display_name ->
  py_truthy display_name = false ->
  fallback_city up user_input city w =
    (Ok PNone, log_call (HttpGet (nominatim_url user_input) user_agent) w).
Proof.
  intros Hget Hjson Hname Hfalsy.
  unfold fallback_city. run. rewrite Hget; simpl. rewrite Hjson; simpl.
  simpl in Hname. rewrite Hname. simpl. now rewrite Hfalsy.
Qed.

(** X14: when the extraction step ends with nothing and the geocoder's
    first result has no display name, or an empty one, the city of the
    answer is null, also when the extraction had left the empty string. *)
Theorem chat_fallback_without_display_name_is_null (up : upstream) (req : request)
    (w : world) (payload user_input reply display_name : pyval) (itinerary : completion)
    (answer : response) (fields : list (string * pyval)) (rest : list pyval) :
  request_json req = Ok payload ->
  py_get payload "message" PNone = Ok user_input ->
  is_greeting user_input = Ok false ->
  chat_completions_create up (OPENAI_API_KEY w) "gpt-4o-mini"
    [("system", PStr system_prompt); ("user", user_input)] temperature_0_7 = Ok itinerary ->
  first_content itinerary = Ok reply ->
  extraction_empty
    (chat_completions_create up (OPENAI_API_KEY w) "gpt-4o-mini"
       [("system", PStr city_prompt); ("user", user_input)] (PInt 0)) ->
  requests_get up (nominatim_url user_input) user_agent = Ok answer ->
  json answer = Ok (PList (PDict fields :: rest)) ->
  py_get (PDict fields) "display_name" (PStr EmptyString) = Ok display_name ->
  py_truthy display_name = false ->
  fst (chat up req w)
  = {| body := PDict [("reply", reply); ("city", PNone)]; status := 200 |}.
Proof.
  intros Hjson Hmsg Hgreet Hplan Hreply Hextract Hget Hanswer Hname Hfalsy.
  unfold chat, try_return, bind at 1 2 3. unfold lift at 1 2 3.
  rewrite Hjson, Hmsg, Hgreet.
  unfold bind at 1. unfold chat_create at 1. cbn [OPENAI_API_KEY log_call].
  rewrite Hplan. unfold bind at 1, lift at 1. rewrite Hreply.
  unfold bind at 1.
  match goal with |- context [detect_city up user_input ?w1] =>
    destruct (detect_city_empty up user_input w1 Hextract) as (w2 & _ & [-> | ->]) end;
    unfold bind at 1; cbn [py_truthy String.eqb negb];
    rewrite (fallback_city_without_display_name up user_input _ w2 answer fields rest
               display_name) by assumption;
    reflexivity.
Qed.

Lemma detect_city_fails (up : upstream) (user_input : pyval) (w : world) :
  extraction_fails
    (chat_completions_create up (OPENAI_API_KEY w) "gpt-4o-mini"
       [("system", PStr city_prompt); ("user", user_input)] (PInt 0)) ->
  exists w' : world, detect_city up user_input w = (Ok PNone, w').
Proof.
  unfold extraction_fails, detect_city. run.
  destruct (chat_completions_create up _ _ _ _) as [c|e]; simpl.
  - destruct (first_content c) as [[| | | |s| |]|e]; simpl; intros H;
      try contradiction; eexists; reflexivity.
  - intros _. eexists; reflexivity.
Qed.

Lemma fallback_city_nothing (up : upstream) (user_input city : pyval) (w : world) :
  geocoder_finds_nothing (requests_get up (nominatim_url user_input) user_agent) ->
  fst (fallback_city up user_input city w) = Ok city.
Proof.
  unfold geocoder_finds_nothing, fallback_city. run.
  destruct (requests_get up _ _) as [res|e]; simpl; [|reflexivity].
  destruct (json res) as [v|e]; simpl; [|reflexivity].
  intros ->. reflexivity.
Qed.

(** X15: when the extraction step fails (the call raises, or returns no
    text) and the geocoder gives nothing (its call fails, its body is not
    JSON, or it has no result), both failures are swallowed: the answer is
    200 with the reply and city null. *)
Theorem chat_city_null_when_both_steps_fail (up : upstream) (req : request) (w : world)
    (payload user_input reply : pyval) (itinerary : completion) :
  request_json req = Ok payload ->
  py_get payload "message" PNone = Ok user_input ->
  is_greeting user_input = Ok false ->
  chat_completions_create up (OPENAI_API_KEY w) "gpt-4o-mini"
    [("system", PStr system_prompt); ("user", user_input)] temperature_0_7 = Ok itinerary ->
  first_content itinerary = Ok reply ->
  extraction_fails
    (chat_completions_create up (OPENAI_API_KEY w) "gpt-4o-mini"
       [("system", PStr city_prompt); ("user", user_input)] (PInt 0)) ->
  geocoder_finds_nothing (requests_get up (nominatim_url user_input) user_agent) ->
  fst (chat up req w)
  = {| body := PDict [("reply", reply); ("city", PNone)]; status := 200 |}.
Proof.
  intros Hjson Hmsg Hgreet Hplan Hreply Hextract Hgeo.
  unfold chat, try_return, bind at 1 2 3. unfold lift at 1 2 3.
  rewrite Hjson, Hmsg, Hgreet.
  unfold bind at 1. unfold chat_create at 1. cbn [OPENAI_API_KEY log_call].
  rewrite Hplan. unfold bind at 1, lift at 1. rewrite Hreply.
  unfold bind at 1.
  match goal with |- context [detect_city up user_input ?w1] =>
    destruct (detect_city_fails up user_input w1 Hextract) as (w2 & ->) end.
  unfold bind at 1. cbn [py_truthy negb].
  pose proof (fallback_city_nothing up user_input PNone w2 Hgeo) as Hfall.
  destruct (fallback_city up user_input PNone w2) as [r w3]. simpl in Hfall. subst r.
  reflexivity.
Qed.

(** *** /weather: other upstream answers *)

(** Decides the innermost test the goal is stuck on. *)
Ltac case_innermost :=
  match goal with
  | |- context [match ?x with _ => _ end] =>
      lazymatch x with
      | context [match _ with _ => _ end] => fail
      | _ => destruct x; simpl
      end
  end.

(** X16: with a city present /weather issues exactly one outbound call,
    whatever the service answers: a GET without headers of the weather
    address built from the city, the WEATHER_API_KEY global and metric
    units. *)
Theorem weather_issues_one_get (up : upstream) (req : request) (w : world) :
  py_truthy (args_get (args req) "city") = true ->
  calls (snd (weather up req w))
  = (calls w
     ++ [HttpGet ("http://api.openweathermap.org/data/2.5/weather?q="
                  ++ py_str (args_get (args req) "city")
                  ++ "&appid=" ++ WEATHER_API_KEY w ++ "&units=metric") []])%list.
Proof.
  intros Hcity. unfold weather. rewrite Hcity. run. unfold weather_url.
  repeat case_innermost; reflexivity.
Qed.

(** X17: when the body of the weather answer is not JSON, /weather
    answers 500 with the decoding error, whatever the upstream status:
    the body is parsed before the status is looked at. *)
Theorem weather_unparsable_body_is_500 (up : upstream) (req : request) (w : world)
    (res : response) (e : exn) :
  py_truthy (args_get (args req) "city") = true ->
  requests_get up (weather_url (args_get (args req) "city") (WEATHER_API_KEY w)) [] = Ok res ->
  json res = Raise e ->
  fst (weather up req w)
  = {| body := PDict [("error", PStr (str_exn e))]; status := 500 |}.
Proof.
  intros Hcity Hget Hjson. unfold weather. rewrite Hcity. run.
  rewrite Hget, Hjson. reflexivity.
Qed.

(** X18: an upstream status other than 200 gives 404 "Weather not found"
    for any JSON body, object or not: the body is not looked into. *)
Theorem weather_non_200_is_404 (up : upstream) (req : request) (w : world)
    (res : response) (data : pyval) :
  py_truthy (args_get (args req) "city") = true ->
  requests_get up (weather_url (args_get (args req) "city") (WEATHER_API_KEY w)) [] = Ok res ->
  json res = Ok data ->
  status_code res <> 200%Z ->
  fst (weather up req w)
  = {| body := PDict [("error", PStr "Weather not found")]; status := 404 |}.
Proof.
  intros Hcity Hget Hjson Hstatus. unfold weather. rewrite Hcity. run.
  rewrite Hget, Hjson. unfold weather_not_found.
  apply Z.eqb_neq in Hstatus. rewrite Hstatus. reflexivity.
Qed.

(** *** The three GET handlers *)

(** X19: when the first outbound GET of /weather, /hotels or /geocode
    fails in transport, the handler answers 500 with the error text, has
    logged that one call and printed the error under its own tag. *)
Theorem first_get_failure_is_500 (up : upstream) (req : request) (w : world) (e : exn) :
  (py_truthy (args_get (args req) "city") = true ->
   requests_get up (weather_url (args_get (args req) "city") (WEATHER_API_KEY w)) []
   = Raise e ->
   weather up req w
   = ({| body := PDict [("error", PStr (str_exn e))]; status := 500 |},
      log_line ("ERROR in /weather: " ++ str_exn e)
        (log_call (HttpGet (weather_url (args_get (args req) "city") (WEATHER_API_KEY w)) [])
           w)))
  /\ (py_truthy (args_get (args req) "city") = true ->
      requests_get up (nominatim_url (args_get (args req) "city")) user_agent = Raise e ->
      hotels up req w
      = ({| body := PDict [("error", PStr (str_exn e))]; status := 500 |},
         log_line ("ERROR in /hotels: " ++ str_exn e)
           (log_call (HttpGet (nominatim_url (args_get (args req) "city")) user_agent) w)))
  /\ (py_truthy (args_get (args req) "place") = true ->
      requests_get up (nominatim_url (args_get (args req) "place")) user_agent = Raise e ->
      geocode up req w
      = ({| body := PDict [("error", PStr (str_exn e))]; status := 500 |},
         log_line ("ERROR in /geocode: " ++ str_exn e)
           (log_call (HttpGet (nominatim_url (args_get (args req) "place")) user_agent) w))).
Proof.
  split; [|split]; intros Hparam Hget.
  - unfold weather. rewrite Hparam. run. rewrite Hget. reflexivity.
  - unfold hotels. rewrite Hparam. run. rewrite Hget. reflexivity.
  - unfold geocode. rewrite Hparam. run. rewrite Hget. reflexivity.
Qed.

(** X20: a parameter that is there but empty (?city=, ?place=) is
    treated as missing: 400 with the same message, process state
    untouched. *)
Theorem empty_parameter_is_400 (up : upstream) (req : request) (w : world) :
  (args_get (args req) "city" = PStr EmptyString ->
   weather up req w
   = ({| body := PDict [("error", PStr "City is required")]; status := 400 |}, w))
  /\ (args_get (args req) "city" = PStr EmptyString ->
      hotels up req w
      = ({| body := PDict [("error", PStr "City is required")]; status := 400 |}, w))
  /\ (args_get (args req) "place" = PStr EmptyString ->
      geocode up req w
      = ({| body := PDict [("error", PStr "Place is required")]; status := 400 |}, w)).
Proof.
  split; [|split]; intros H.
  - unfold weather. now rewrite H.
  - unfold hotels. now rewrite H.
  - unfold geocode. now rewrite H.
Qed.

(** *** /hotels: other upstream answers *)

(** X21: when the geocoder has no result for the city, /hotels answers
    404 "City not found" after that one call; the places service is not
    asked. *)
Theorem hotels_city_not_found (up : upstream) (req : request) (w : world)
    (geo : response) (nom_res : pyval) :
  py_truthy (args_get (args req) "city") = true ->
  requests_get up (nominatim_url (args_get (args req) "city")) user_agent = Ok geo ->
  json geo = Ok nom_res ->
  py_truthy nom_res = false ->
  hotels up req w
  = ({| body := PDict [("error", PStr "City not found")]; status := 404 |},
     log_call (HttpGet (nominatim_url (args_get (args req) "city")) user_agent) w).
Proof.
  intros Hcity Hget Hjson Hfalsy. unfold hotels. rewrite Hcity. run.
  rewrite Hget; simpl. rewrite Hjson, Hfalsy. reflexivity.
Qed.

(** The loop stops at the first place that raises. *)
Lemma hotels_loop_first_failure (city : pyval) (good : list pyval) (bad : pyval)
    (rest : list pyval) (e : exn) :
  (forall place, In place good -> exists o, hotel_of_place city place = Ok o) ->
  hotel_of_place city bad = Raise e ->
  forall acc, hotels_loop city (good ++ bad :: rest) acc = Raise e.
Proof.
  intros Hgood Hbad. induction good as [|place good IH]; intros acc; simpl.
  - now rewrite Hbad.
  - destruct (Hgood place (or_introl eq_refl)) as (o & ->).
    assert (Hrest : forall p, In p good -> exists o', hotel_of_place city p = Ok o')
      by (intros p Hp; apply Hgood; now right).
    destruct o; apply (IH Hrest).
Qed.

(** X22: /hotels is all or nothing: when one place of the upstream
    answer cannot be read (the first such place raises [e]), the answer is
    500 with that error, and the places read before it are not returned. *)
Theorem hotels_malformed_place_fails_request (up : upstream) (req : request) (w : world)
    (geo places_answer : response) (nom_res nom0 lat lon places_res features : pyval)
    (good : list pyval) (bad : pyval) (rest : list pyval) (e : exn) :
  py_truthy (args_get (args req) "city") = true ->
  requests_get up (nominatim_url (args_get (args req) "city")) user_agent = Ok geo ->
  json geo = Ok nom_res ->
  py_truthy nom_res = true ->
  py_getitem nom_res (KInt 0) = Ok nom0 ->
  py_getitem nom0 (KStr "lat") = Ok lat ->
  py_getitem nom0 (KStr "lon") = Ok lon ->
  requests_get up (places_url lat lon (OPENTRIPMAP_API_KEY w)) [] = Ok places_answer ->
  json places_answer = Ok places_res ->
  py_get places_res "features" (PList []) = Ok features ->
  py_iter features = Ok (good ++ bad :: rest)%list ->
  (forall place, In place good ->
     exists o, hotel_of_place (args_get (args req) "city") place = Ok o) ->
  hotel_of_place (args_get (args req) "city") bad = Raise e ->
  fst (hotels up req w)
  = {| body := PDict [("error", PStr (str_exn e))]; status := 500 |}.
Proof.
  intros Hcity Hgeo Hnom Htruthy Hnom0 Hlat Hlon Hplaces Hres Hfeatures Hiter Hgood Hbad.
  rewrite (hotels_reaches_places up req w geo places_answer nom_res nom0 lat lon
             places_res features (good ++ bad :: rest)) by assumption.
  now rewrite (hotels_loop_first_failure _ good bad rest e Hgood Hbad []).
Qed.

(** X23: once the geocoder has located the city, /hotels issues exactly
    two outbound calls, whatever the places service answers: the geocoding
    GET with the User-Agent header, then a GET without headers of the
    places address built from the first result's lon and lat and the
    OPENTRIPMAP_API_KEY global. *)
Theorem hotels_two_gets_in_order (up : upstream) (req : request) (w : world)
    (geo : response) (nom_res nom0 lat lon : pyval) :
  py_truthy (args_get (args req) "city") = true ->
  requests_get up (nominatim_url (args_get (args req) "city")) user_agent = Ok geo ->
  json geo = Ok nom_res ->
  py_truthy nom_res = true ->
  py_getitem nom_res (KInt 0) = Ok nom0 ->
  py_getitem nom0 (KStr "lat") = Ok lat ->
  py_getitem nom0 (KStr "lon") = Ok lon ->
  calls (snd (hotels up req w))
  = (calls w
     ++ [HttpGet ("https://nominatim.openstreetmap.org/search?format=json&q="
                  ++ py_str (args_get (args req) "city"))
           [("User-Agent", "travel-buddy")];
         HttpGet ("https://api.opentripmap.com/0.1/en/places/radius?radius=5000&lon="
                  ++ py_str lon ++ "&lat=" ++ py_str lat
                  ++ "&kinds=accomodations&limit=5&apikey=" ++ OPENTRIPMAP_API_KEY w)
           []])%list.
Proof.
  intros Hcity Hgeo Hnom Htruthy Hnom0 Hlat Hlon.
  unfold hotels. rewrite Hcity. run.
  rewrite Hgeo; simpl. rewrite Hnom, Htruthy; simpl.
  rewrite Hnom0, Hlat, Hlon. run.
  unfold places_url, nominatim_url.
  repeat case_innermost; rewrite <- ?app_assoc; reflexivity.
Qed.

(** *** /geocode: other upstream answers *)

(** X24: any falsy answer of the geocoder (an empty list, null, an empty
    object) gives 404 "No results found" after that one call. *)
Theorem geocode_falsy_answer_is_404 (up : upstream) (req : request) (w : world)
    (answer : response) (res : pyval) :
  py_truthy (args_get (args req) "place") = true ->
  requests_get up (nominatim_url (args_get (args req) "place")) user_agent = Ok answer ->
  json answer = Ok res ->
  py_truthy res = false ->
  geocode up req w
  = ({| body := PDict [("error", PStr "No results found")]; status := 404 |},
     log_call (HttpGet (nominatim_url (args_get (args req) "place")) user_agent) w).
Proof.
  intros Hplace Hget Hjson Hfalsy. unfold geocode. rewrite Hplace. run.
  rewrite Hget; simpl. rewrite Hjson, Hfalsy. reflexivity.
Qed.

(** X25: when the geocoder's first result is an object without "lat",
    or with "lat" and without "lon", /geocode answers 500 with the
    KeyError of the first missing key, not 404 and not a partial result. *)
Theorem geocode_incomplete_first_result_is_500 (up : upstream) (req : request)
    (w : world) (answer : response) (fields : list (string * pyval)) (rest : list pyval) :
  py_truthy (args_get (args req) "place") = true ->
  requests_get up (nominatim_url (args_get (args req) "place")) user_agent = Ok answer ->
  json answer = Ok (PList (PDict fields :: rest)) ->
  (lookup "lat" fields = None ->
   fst (geocode up req w)
   = {| body := PDict [("error", PStr (str_exn (KeyError (KStr "lat"))))]; status := 500 |})
  /\ (lookup "lat" fields <> None -> lookup "lon" fields = None ->
      fst (geocode up req w)
      = {| body := PDict [("error", PStr (str_exn (KeyError (KStr "lon"))))];
           status := 500 |}).
Proof.
  intros Hplace Hget Hjson. split.
  - intros Hlat. unfold geocode. rewrite Hplace. run. rewrite Hget; simpl.
    rewrite Hjson. simpl. rewrite Hlat.
    destruct (lookup "display_name" fields); reflexivity.
  - intros Hlat Hlon. unfold geocode. rewrite Hplace. run. rewrite Hget; simpl.
    rewrite Hjson. simpl. rewrite Hlon.
    destruct (lookup "lat" fields); [|congruence].
    destruct (lookup "display_name" fields); reflexivity.
Qed.

(** *** /chat and /hotels keep no state either *)

(** X26: with the same request and the same stub, /chat and /hotels give
    the same response from any two process states that agree on the
    start-up globals, and they leave these globals as they are. *)
Theorem chat_hotels_keep_no_state (up : upstream) (req : request) (w : world) :
  (forall w' : world, same_globals w w' ->
     fst (chat up req w') = fst (chat up req w)
     /\ fst (hotels up req w') = fst (hotels up req w))
  /\ same_globals w (snd (chat up req w))
  /\ same_globals w (snd (hotels up req w)).
Proof.
  pose proof (chat_stateless up req) as [Hc Hckeep].
  pose proof (hotels_stateless up req) as [Hh Hhkeep].
  split; [|split].
  - intros w' Hsame. split; symmetry; auto.
  - apply Hckeep.
  - apply Hhkeep.
Qed.

End Handlers.

(** ** The theorems at sample requests *)

(** C1 at "Hello". *)
Lemma chat_greeting_lowercased_witness :
  chat Sample.str_exn Sample.py_repr Sample.down
       (Sample.post_request (PDict [("message", PStr "Hello")])) Sample.w0
  = ({| body := PDict [("reply", PStr "Hello! I can help you plan trips. Where would you like to go?");
                       ("city", PNone)];
        status := 200 |}, Sample.w0).
Proof.
  apply (chat_greeting_lowercased Sample.str_exn Sample.py_repr Sample.down _ Sample.w0
           (PDict [("message", PStr "Hello")]) "Hello").
  - reflexivity.
  - reflexivity.
  - simpl. auto.
Defined.

(** C1 as stated fails: " hi" trims and lowercases to "hi", yet the
    handler calls the language model twice and returns the model's reply. *)
Lemma chat_greeting_not_trimmed :
  In (py_lower (py_strip " hi")) ["hi"; "hello"; "hey"]
  /\ fst (chat Sample.str_exn Sample.py_repr Sample.talkative
            (Sample.post_request (PDict [("message", PStr " hi")])) Sample.w0)
     = {| body := PDict [("reply", PStr "Hi! Where are you headed?");
                         ("city", PStr "Unknown")];
          status := 200 |}
  /\ length (calls (snd (chat Sample.str_exn Sample.py_repr Sample.talkative
                           (Sample.post_request (PDict [("message", PStr " hi")]))
                           Sample.w0))) = 2.
Proof. split; [simpl; auto | split; reflexivity]. Qed.

(** C9 at a request without query string. *)
Lemma weather_city_absent_witness :
  weather Sample.str_exn Sample.py_repr Sample.down (Sample.get_request []) Sample.w0
  = ({| body := PDict [("error", PStr "City is required")]; status := 400 |}, Sample.w0)
  /\ calls (snd (weather Sample.str_exn Sample.py_repr Sample.down
                   (Sample.get_request []) Sample.w0)) = calls Sample.w0.
Proof.
  apply (weather_city_absent Sample.str_exn Sample.py_repr Sample.down
           (Sample.get_request []) Sample.w0).
  reflexivity.
Defined.

(** C2 at the Paris scenario: temp 18, "clear sky", name "Paris". *)
Lemma weather_outcomes_witness :
  fst (weather Sample.str_exn Sample.py_repr (Sample.weather_up Sample.paris_weather)
         (Sample.get_request [("city", "Paris")]) Sample.w0)
  = {| body := PDict [("temperature", PInt 18);
                      ("condition", PStr "clear sky");
                      ("city", PStr "Paris")];
       status := 200 |}.
Proof.
  exact (proj2 (weather_outcomes Sample.str_exn Sample.py_repr
                  (Sample.weather_up Sample.paris_weather)
                  (Sample.get_request [("city", "Paris")]) Sample.w0
                  {| status_code := 200; json := Ok Sample.paris_weather |}
                  [("weather", PList [PDict [("description", PStr "clear sky")]]);
                   ("main", PDict [("temp", PInt 18)]);
                   ("name", PStr "Paris")]
                  eq_refl eq_refl eq_refl)
               (PDict [("temp", PInt 18)]) eq_refl eq_refl).
Defined.

(** C2 as stated fails: a 200 answer that has "main" but no "weather"
    key lacks an expected field, and the handler answers 500, neither 404
    nor 200. *)
Lemma weather_missing_description_is_500 :
  lookup "weather" [("main", PDict [("temp", PInt 18)]); ("name", PStr "Paris")] = None
  /\ fst (weather Sample.str_exn Sample.py_repr
            (Sample.weather_up (PDict [("main", PDict [("temp", PInt 18)]);
                                       ("name", PStr "Paris")]))
            (Sample.get_request [("city", "Paris")]) Sample.w0)
     = {| body := PDict [("error", PStr "'weather'")]; status := 500 |}.
Proof. split; reflexivity. Qed.

(** C10 at a payload without "name". *)
Lemma weather_city_defaults_to_request_witness :
  status (fst (weather Sample.str_exn Sample.py_repr
                 (Sample.weather_up (PDict Sample.misty_fields))
                 (Sample.get_request [("city", "Paris")]) Sample.w0)) = 200%Z
  /\ py_getitem
       (body (fst (weather Sample.str_exn Sample.py_repr
                     (Sample.weather_up (PDict Sample.misty_fields))
                     (Sample.get_request [("city", "Paris")]) Sample.w0)))
       (KStr "city")
     = Ok (PStr "Paris").
Proof.
  apply (weather_city_defaults_to_request Sample.str_exn Sample.py_repr
           (Sample.weather_up (PDict Sample.misty_fields))
           (Sample.get_request [("city", "Paris")]) Sample.w0
           {| status_code := 200; json := Ok (PDict Sample.misty_fields) |}
           Sample.misty_fields
           (PDict [("temp", PInt 7)]) (PInt 7)
           (PList [PDict [("description", PStr "mist")]])
           (PDict [("description", PStr "mist")]) (PStr "mist"));
    reflexivity.
Defined.

(** C3 at one hotel near Paris. *)
Lemma hotels_at_most_upstream_places_witness :
  length [hotel_dict Sample.py_repr (PStr "Paris") (PStr "Hotel A") (PInt 48) (PInt 2)]
    <= length [Sample.named "Hotel A" 2 48]
  /\ (length [Sample.named "Hotel A" 2 48] <= 5 ->
      length [hotel_dict Sample.py_repr (PStr "Paris") (PStr "Hotel A") (PInt 48) (PInt 2)] <= 5)
  /\ (exists before after : string,
        places_url Sample.py_repr (PStr "48.8534951") (PStr "2.3483915")
          (OPENTRIPMAP_API_KEY Sample.w0)
        = before ++ "&limit=5&" ++ after).
Proof.
  apply (hotels_at_most_upstream_places Sample.str_exn Sample.py_repr
           (Sample.hotels_up [Sample.named "Hotel A" 2 48])
           (Sample.get_request [("city", "Paris")]) Sample.w0
           {| status_code := 200; json := Ok (PList [Sample.paris]) |}
           {| status_code := 200;
              json := Ok (Sample.feature_collection [Sample.named "Hotel A" 2 48]) |}
           (PList [Sample.paris]) Sample.paris (PStr "48.8534951") (PStr "2.3483915")
           (Sample.feature_collection [Sample.named "Hotel A" 2 48])
           (PList [Sample.named "Hotel A" 2 48])
           [Sample.named "Hotel A" 2 48]);
    reflexivity.
Defined.

(** C3 as stated fails: the handler does not cut the list; when the
    upstream answers with six named places, six entries are returned. *)
Lemma hotels_six_entries :
  exists hotels_list : list pyval,
    fst (hotels Sample.str_exn Sample.py_repr (Sample.hotels_up Sample.six_places)
           (Sample.get_request [("city", "Paris")]) Sample.w0)
    = {| body := PList hotels_list; status := 200 |}
    /\ length hotels_list = 6.
Proof. eexists. split; reflexivity. Qed.

(** C5 at three places: one named, one without a name key, one with an
    empty name. *)
Lemma hotels_lists_named_places_witness :
  fst (hotels Sample.str_exn Sample.py_repr
         (Sample.hotels_up [Sample.named "Hotel A" 2 48; Sample.place [] 3 49;
                            Sample.named EmptyString 4 50])
         (Sample.get_request [("city", "Paris")]) Sample.w0)
  = {| body := PList [spec_entry Sample.py_repr (PStr "Paris") (PStr "Hotel A") (PInt 48) (PInt 2);
                      spec_entry Sample.py_repr (PStr "Paris") (PStr "Unnamed") (PInt 49) (PInt 3)];
       status := 200 |}.
Proof.
  apply (hotels_lists_named_places Sample.str_exn Sample.py_repr
           (Sample.hotels_up [Sample.named "Hotel A" 2 48; Sample.place [] 3 49;
                              Sample.named EmptyString 4 50])
           (Sample.get_request [("city", "Paris")]) Sample.w0
           {| status_code := 200; json := Ok (PList [Sample.paris]) |}
           {| status_code := 200;
              json := Ok (Sample.feature_collection
                            [Sample.named "Hotel A" 2 48; Sample.place [] 3 49;
                             Sample.named EmptyString 4 50]) |}
           (PList [Sample.paris]) Sample.paris (PStr "48.8534951") (PStr "2.3483915")
           (Sample.feature_collection
              [Sample.named "Hotel A" 2 48; Sample.place [] 3 49; Sample.named EmptyString 4 50])
           [Sample.named "Hotel A" 2 48; Sample.place [] 3 49; Sample.named EmptyString 4 50]);
    try reflexivity.
  intros place [<- | [<- | [<- | []]]]; discriminate.
Defined.

(** C5 as stated fails: a place without a name is listed all the same,
    as "Unnamed". *)
Lemma hotels_lists_unnamed_place :
  py_getitem (Sample.place [] 2 48) (KStr "properties") = Ok (PDict [])
  /\ exists entry : pyval,
       fst (hotels Sample.str_exn Sample.py_repr (Sample.hotels_up [Sample.place [] 2 48])
              (Sample.get_request [("city", "Paris")]) Sample.w0)
       = {| body := PList [entry]; status := 200 |}
       /\ py_getitem entry (KStr "name") = Ok (PStr "Unnamed")
       /\ py_getitem entry (KStr "booking_link")
          = Ok (PStr "https://www.booking.com/searchresults.html?ss=Unnamed+Paris").
Proof. split; [reflexivity|]. eexists. repeat split; reflexivity. Qed.

(** C7 at a place the geocoder does not know, and at Paris. *)
Lemma geocode_first_result_or_404_witness :
  (status (fst (geocode Sample.str_exn Sample.py_repr (Sample.geocode_up [])
                  (Sample.get_request [("place", "Atlantis")]) Sample.w0)) = 404%Z
   /\ body (fst (geocode Sample.str_exn Sample.py_repr (Sample.geocode_up [])
                   (Sample.get_request [("place", "Atlantis")]) Sample.w0))
      = PDict [("error", PStr "No results found")]
   /\ py_contains "error"
        (body (fst (geocode Sample.str_exn Sample.py_repr (Sample.geocode_up [])
                      (Sample.get_request [("place", "Atlantis")]) Sample.w0))) = Ok true
   /\ py_contains "name"
        (body (fst (geocode Sample.str_exn Sample.py_repr (Sample.geocode_up [])
                      (Sample.get_request [("place", "Atlantis")]) Sample.w0))) = Ok false)
  /\ fst (geocode Sample.str_exn Sample.py_repr (Sample.geocode_up [Sample.paris])
            (Sample.get_request [("place", "Paris")]) Sample.w0)
     = {| body := PDict [("name", PStr "Paris, Ile-de-France, France");
                         ("lat", PStr "48.8534951");
                         ("lon", PStr "2.3483915")];
          status := 200 |}.
Proof.
  split.
  - apply (proj1 (geocode_first_result_or_404 Sample.str_exn Sample.py_repr
                    (Sample.geocode_up []) (Sample.get_request [("place", "Atlantis")])
                    Sample.w0 {| status_code := 200; json := Ok (PList []) |} []
                    eq_refl eq_refl eq_refl)).
    reflexivity.
  - apply (proj2 (geocode_first_result_or_404 Sample.str_exn Sample.py_repr
                    (Sample.geocode_up [Sample.paris])
                    (Sample.get_request [("place", "Paris")])
                    Sample.w0 {| status_code := 200; json := Ok (PList [Sample.paris]) |}
                    [Sample.paris] eq_refl eq_refl eq_refl)
             [("lat", PStr "48.8534951"); ("lon", PStr "2.3483915");
              ("display_name", PStr "Paris, Ile-de-France, France")]
             [] (PStr "48.8534951") (PStr "2.3483915"));
      reflexivity.
Defined.

(** C7 as stated fails: the result list is not empty, its first result
    has a display name and a latitude and no longitude, and the handler
    answers 500 with the KeyError's text, not 200. *)
Lemma geocode_result_without_lon_is_500 :
  PList [PDict [("display_name", PStr "Null Island"); ("lat", PStr "0.0")]] <> PList []
  /\ fst (geocode Sample.str_exn Sample.py_repr
            (Sample.geocode_up [PDict [("display_name", PStr "Null Island");
                                       ("lat", PStr "0.0")]])
            (Sample.get_request [("place", "Null Island")]) Sample.w0)
     = {| body := PDict [("error", PStr "'lon'")]; status := 500 |}.
Proof. split; [discriminate | reflexivity]. Qed.

(** C8 at two process states with the same globals and different logs. *)
Lemma weather_geocode_deterministic_witness :
  fst (weather Sample.str_exn Sample.py_repr (Sample.weather_up Sample.paris_weather)
         (Sample.get_request [("city", "Paris")]) Sample.w1)
  = fst (weather Sample.str_exn Sample.py_repr (Sample.weather_up Sample.paris_weather)
           (Sample.get_request [("city", "Paris")]) Sample.w0)
  /\ fst (geocode Sample.str_exn Sample.py_repr (Sample.weather_up Sample.paris_weather)
            (Sample.get_request [("city", "Paris")]) Sample.w1)
     = fst (geocode Sample.str_exn Sample.py_repr (Sample.weather_up Sample.paris_weather)
              (Sample.get_request [("city", "Paris")]) Sample.w0).
Proof.
  apply (proj1 (weather_geocode_deterministic Sample.str_exn Sample.py_repr
                  (Sample.weather_up Sample.paris_weather)
                  (Sample.get_request [("city", "Paris")]) Sample.w0) Sample.w1).
  repeat split; reflexivity.
Defined.

(** C4 at a request without query string. *)
Lemma presence_checks_witness :
  weather Sample.str_exn Sample.py_repr Sample.down (Sample.get_request []) Sample.w0
  = ({| body := PDict [("error", PStr "City is required")]; status := 400 |}, Sample.w0)
  /\ hotels Sample.str_exn Sample.py_repr Sample.down (Sample.get_request []) Sample.w0
     = ({| body := PDict [("error", PStr "City is required")]; status := 400 |}, Sample.w0)
  /\ geocode Sample.str_exn Sample.py_repr Sample.down (Sample.get_request []) Sample.w0
     = ({| body := PDict [("error", PStr "Place is required")]; status := 400 |}, Sample.w0).
Proof.
  pose proof (presence_checks Sample.str_exn Sample.py_repr Sample.down
                (Sample.get_request []) Sample.w0) as (Hweather & Hhotels & Hgeocode & _).
  split; [apply Hweather; reflexivity|].
  split; [apply Hhotels; reflexivity | apply Hgeocode; reflexivity].
Defined.

(** C4 as stated fails for /chat: a body without "message" is not
    answered with 400; the missing message is sent to the language model,
    and the status is the 500 of the model's failure. *)
Lemma chat_missing_message_not_400 :
  py_get (PDict []) "message" PNone = Ok PNone
  /\ status (fst (chat Sample.str_exn Sample.py_repr Sample.rejecting
                    (Sample.post_request (PDict [])) Sample.w0)) = 500%Z
  /\ calls (snd (chat Sample.str_exn Sample.py_repr Sample.rejecting
                   (Sample.post_request (PDict [])) Sample.w0))
     = [ChatCreate "sk-test" "gpt-4o-mini"
          [("system", PStr system_prompt); ("user", PNone)] temperature_0_7].
Proof. repeat split; reflexivity. Qed.

(** C6 on the code: the extraction call answers with blanks and the
    geocoder cannot be reached; the failure is swallowed and the status is
    200, but the city in the response is the empty string, not null. *)
Lemma chat_city_left_empty_string :
  chat Sample.str_exn Sample.py_repr Sample.blank_extraction
       (Sample.post_request (PDict [("message", PStr "Plan three days for me")])) Sample.w0
  = ({| body := PDict [("reply", PStr "Day 1:
- Morning: Louvre");
                       ("city", PStr EmptyString)];
        status := 200 |},
     {| OPENAI_API_KEY := "sk-test";
        WEATHER_API_KEY := "owm-test";
        OPENTRIPMAP_API_KEY := "otm-test";
        calls :=
          [ChatCreate "sk-test" "gpt-4o-mini"
             [("system", PStr system_prompt); ("user", PStr "Plan three days for me")]
             temperature_0_7;
           ChatCreate "sk-test" "gpt-4o-mini"
             [("system", PStr city_prompt); ("user", PStr "Plan three days for me")]
             (PInt 0);
           HttpGet "https://nominatim.openstreetmap.org/search?format=json&q=Plan three days for me"
             [("User-Agent", "travel-buddy")]];
        stdout := ["Fallback city detection error: connection refused"] |}).
Proof. reflexivity. Qed.

(** ** More sample requests *)

(** X6 at an environment with the three keys: with a constructor that
    returns, and with one that rejects the proxy settings. *)
Lemma module_body_started_witness :
  module_body Sample.client_ok Sample.full_env = Started Sample.w0
  /\ module_body Sample.client_bad_proxy Sample.full_env
     = ClientError (ExternalError "Unknown scheme for proxy URL").
Proof.
  split.
  - apply (proj2 (proj1 (module_body_started Sample.client_ok Sample.full_env) Sample.w0)).
    exists "sk-test", "owm-test", "otm-test".
    repeat split; try reflexivity; discriminate.
  - apply (proj2 (proj2 (module_body_started Sample.client_bad_proxy Sample.full_env)
                    (ExternalError "Unknown scheme for proxy URL"))).
    exists "sk-test", "owm-test", "otm-test".
    repeat split; try reflexivity; discriminate.
Defined.

(** X7 at an environment whose WEATHER_API_KEY is empty. *)
Lemma module_body_refuses_witness :
  module_body Sample.client_bad_proxy Sample.env_without_weather
  = ValueError "❌ WEATHER_API_KEY not found in .env file".
Proof.
  apply (proj2 (module_body_refuses Sample.client_bad_proxy Sample.env_without_weather
                  "❌ WEATHER_API_KEY not found in .env file")).
  right. left. repeat split; reflexivity.
Defined.

(** X8 at a body that is a JSON list. *)
Lemma chat_unreadable_body_is_500_witness :
  chat Sample.str_exn Sample.py_repr Sample.down (Sample.post_request (PList [])) Sample.w0
  = ({| body := PDict [("error", PStr "AttributeError")]; status := 500 |},
     log_line "ERROR in /chat: AttributeError" Sample.w0).
Proof.
  apply (chat_unreadable_body_is_500 Sample.str_exn Sample.py_repr Sample.down
           (Sample.post_request (PList [])) Sample.w0 AttributeError).
  reflexivity.
Defined.

(** X9 at the message 5. *)
Lemma chat_non_string_message_is_500_witness :
  chat Sample.str_exn Sample.py_repr Sample.talkative
       (Sample.post_request (PDict [("message", PInt 5)])) Sample.w0
  = ({| body := PDict [("error", PStr "AttributeError")]; status := 500 |},
     log_line "ERROR in /chat: AttributeError" Sample.w0).
Proof.
  apply (chat_non_string_message_is_500 Sample.str_exn Sample.py_repr Sample.talkative
           (Sample.post_request (PDict [("message", PInt 5)])) Sample.w0
           (PDict [("message", PInt 5)]) (PInt 5)).
  - reflexivity.
  - reflexivity.
  - reflexivity.
  - intros s. discriminate.
Defined.

(** X10 at a trip request. *)
Lemma chat_non_greeting_calls_model_witness :
  exists more : list call,
    calls (snd (chat Sample.str_exn Sample.py_repr Sample.talkative
                  (Sample.post_request Sample.trip) Sample.w0))
    = (calls Sample.w0
       ++ ChatCreate "sk-test" "gpt-4o-mini" (Sample.trip_messages system_prompt)
            temperature_0_7 :: more)%list
    /\ length more <= 2.
Proof.
  apply (chat_non_greeting_calls_model Sample.str_exn Sample.py_repr Sample.talkative
           (Sample.post_request Sample.trip) Sample.w0 Sample.trip
           (PStr "Three days in Paris")); reflexivity.
Defined.

(** X11 at a language model that rejects the request. *)
Lemma chat_itinerary_failure_is_500_witness :
  chat Sample.str_exn Sample.py_repr Sample.rejecting
       (Sample.post_request Sample.trip) Sample.w0
  = ({| body := PDict [("error", PStr "Error code: 400 - invalid message content")];
        status := 500 |},
     log_line "ERROR in /chat: Error code: 400 - invalid message content"
       (log_call (ChatCreate "sk-test" "gpt-4o-mini" (Sample.trip_messages system_prompt)
                    temperature_0_7) Sample.w0)).
Proof.
  apply (chat_itinerary_failure_is_500 Sample.str_exn Sample.py_repr Sample.rejecting
           (Sample.post_request Sample.trip) Sample.w0 Sample.trip
           (PStr "Three days in Paris")
           (ExternalError "Error code: 400 - invalid message content")); reflexivity.
Defined.

(** X12 at an extraction that answers " Paris ". *)
Lemma chat_extracted_city_skips_geocoder_witness :
  chat Sample.str_exn Sample.py_repr
       (Sample.chat_up (Raise Sample.unreachable) (Sample.says " Paris "))
       (Sample.post_request Sample.trip) Sample.w0
  = ({| body := PDict [("reply", PStr Sample.plan_text); ("city", PStr "Paris")];
        status := 200 |},
     log_call (ChatCreate "sk-test" "gpt-4o-mini" (Sample.trip_messages city_prompt) (PInt 0))
       (log_call (ChatCreate "sk-test" "gpt-4o-mini" (Sample.trip_messages system_prompt)
                    temperature_0_7) Sample.w0)).
Proof.
  apply (chat_extracted_city_skips_geocoder Sample.str_exn Sample.py_repr
           (Sample.chat_up (Raise Sample.unreachable) (Sample.says " Paris "))
           (Sample.post_request Sample.trip) Sample.w0 Sample.trip
           (PStr "Three days in Paris") (PStr Sample.plan_text)
           {| choices := [Some Sample.plan_text] |} {| choices := [Some " Paris "] |}
           " Paris "); try reflexivity.
  vm_compute. discriminate.
Defined.

(** X13 at a blank extraction and a geocoder that knows Paris. *)
Lemma chat_fallback_city_is_leading_token_witness :
  exists city : string,
    fst (chat Sample.str_exn Sample.py_repr
           (Sample.chat_up (Sample.http_ok (PList [Sample.paris])) (Sample.says "  "))
           (Sample.post_request Sample.trip) Sample.w0)
    = {| body := PDict [("reply", PStr Sample.plan_text); ("city", PStr city)];
         status := 200 |}
    /\ ~ In ","%char (list_ascii_of_string city)
    /\ ("Paris, Ile-de-France, France" = city
        \/ exists tail : string,
             "Paris, Ile-de-France, France" = city ++ String ","%char tail).
Proof.
  apply (chat_fallback_city_is_leading_token Sample.str_exn Sample.py_repr
           (Sample.chat_up (Sample.http_ok (PList [Sample.paris])) (Sample.says "  "))
           (Sample.post_request Sample.trip) Sample.w0 Sample.trip
           (PStr "Three days in Paris") (PStr Sample.plan_text)
           {| choices := [Some Sample.plan_text] |}
           {| status_code := 200; json := Ok (PList [Sample.paris]) |}
           [("lat", PStr "48.8534951"); ("lon", PStr "2.3483915");
            ("display_name", PStr "Paris, Ile-de-France, France")]
           [] "Paris, Ile-de-France, France"); try reflexivity.
  discriminate.
Defined.

(** X14 at a blank extraction and a geocoder result without display name. *)
Lemma chat_fallback_without_display_name_is_null_witness :
  fst (chat Sample.str_exn Sample.py_repr
         (Sample.chat_up (Sample.http_ok (PList [Sample.nameless_result])) (Sample.says "  "))
         (Sample.post_request Sample.trip) Sample.w0)
  = {| body := PDict [("reply", PStr Sample.plan_text); ("city", PNone)]; status := 200 |}.
Proof.
  apply (chat_fallback_without_display_name_is_null Sample.str_exn Sample.py_repr
           (Sample.chat_up (Sample.http_ok (PList [Sample.nameless_result])) (Sample.says "  "))
           (Sample.post_request Sample.trip) Sample.w0 Sample.trip
           (PStr "Three days in Paris") (PStr Sample.plan_text) (PStr EmptyString)
           {| choices := [Some Sample.plan_text] |}
           {| status_code := 200; json := Ok (PList [Sample.nameless_result]) |}
           [("lat", PStr "48.8534951"); ("lon", PStr "2.3483915")] []);
    reflexivity.
Defined.

(** X15 at an extraction call and a geocoder that both cannot be reached. *)
Lemma chat_city_null_when_both_steps_fail_witness :
  fst (chat Sample.str_exn Sample.py_repr
         (Sample.chat_up (Raise Sample.unreachable) (Raise Sample.unreachable))
         (Sample.post_request Sample.trip) Sample.w0)
  = {| body := PDict [("reply", PStr Sample.plan_text); ("city", PNone)]; status := 200 |}.
Proof.
  apply (chat_city_null_when_both_steps_fail Sample.str_exn Sample.py_repr
           (Sample.chat_up (Raise Sample.unreachable) (Raise Sample.unreachable))
           (Sample.post_request Sample.trip) Sample.w0 Sample.trip
           (PStr "Three days in Paris") (PStr Sample.plan_text)
           {| choices := [Some Sample.plan_text] |}); try reflexivity; exact I.
Defined.

(** X16 at the Paris scenario. *)
Lemma weather_issues_one_get_witness :
  calls (snd (weather Sample.str_exn Sample.py_repr (Sample.weather_up Sample.paris_weather)
                (Sample.get_request [("city", "Paris")]) Sample.w0))
  = [HttpGet "http://api.openweathermap.org/data/2.5/weather?q=Paris&appid=owm-test&units=metric"
       []].
Proof.
  apply (weather_issues_one_get Sample.str_exn Sample.py_repr
           (Sample.weather_up Sample.paris_weather)
           (Sample.get_request [("city", "Paris")]) Sample.w0).
  reflexivity.
Defined.

(** X17 at a 502 answer whose body is not JSON. *)
Lemma weather_unparsable_body_is_500_witness :
  fst (weather Sample.str_exn Sample.py_repr
         (Sample.stub (Raise Sample.unreachable) Sample.bad_gateway
            (Raise Sample.unreachable) (Raise Sample.unreachable))
         (Sample.get_request [("city", "Paris")]) Sample.w0)
  = {| body := PDict [("error", PStr "Expecting value: line 1 column 1 (char 0)")];
       status := 500 |}.
Proof.
  apply (weather_unparsable_body_is_500 Sample.str_exn Sample.py_repr
           (Sample.stub (Raise Sample.unreachable) Sample.bad_gateway
              (Raise Sample.unreachable) (Raise Sample.unreachable))
           (Sample.get_request [("city", "Paris")]) Sample.w0
           {| status_code := 502;
              json := Raise (ExternalError "Expecting value: line 1 column 1 (char 0)") |}
           (ExternalError "Expecting value: line 1 column 1 (char 0)"));
    reflexivity.
Defined.

(** X18 at the weather service's own 404. *)
Lemma weather_non_200_is_404_witness :
  fst (weather Sample.str_exn Sample.py_repr
         (Sample.stub (Raise Sample.unreachable) Sample.city_not_found
            (Raise Sample.unreachable) (Raise Sample.unreachable))
         (Sample.get_request [("city", "Atlantis")]) Sample.w0)
  = {| body := PDict [("error", PStr "Weather not found")]; status := 404 |}.
Proof.
  apply (weather_non_200_is_404 Sample.str_exn Sample.py_repr
           (Sample.stub (Raise Sample.unreachable) Sample.city_not_found
              (Raise Sample.unreachable) (Raise Sample.unreachable))
           (Sample.get_request [("city", "Atlantis")]) Sample.w0
           {| status_code := 404;
              json := Ok (PDict [("cod", PStr "404"); ("message", PStr "city not found")]) |}
           (PDict [("cod", PStr "404"); ("message", PStr "city not found")]));
    try reflexivity.
  discriminate.
Defined.

(** X19 with every service down. *)
Lemma first_get_failure_is_500_witness :
  fst (weather Sample.str_exn Sample.py_repr Sample.down
         (Sample.get_request [("city", "Paris"); ("place", "Paris")]) Sample.w0)
  = {| body := PDict [("error", PStr "connection refused")]; status := 500 |}
  /\ fst (hotels Sample.str_exn Sample.py_repr Sample.down
            (Sample.get_request [("city", "Paris"); ("place", "Paris")]) Sample.w0)
     = {| body := PDict [("error", PStr "connection refused")]; status := 500 |}
  /\ stdout (snd (geocode Sample.str_exn Sample.py_repr Sample.down
                    (Sample.get_request [("city", "Paris"); ("place", "Paris")]) Sample.w0))
     = ["ERROR in /geocode: connection refused"].
Proof.
  pose proof (first_get_failure_is_500 Sample.str_exn Sample.py_repr Sample.down
                (Sample.get_request [("city", "Paris"); ("place", "Paris")]) Sample.w0
                Sample.unreachable) as (Hweather & Hhotels & Hgeocode).
  rewrite Hweather, Hhotels, Hgeocode by reflexivity.
  repeat split; reflexivity.
Defined.

(** X20 at ?city=&place= . *)
Lemma empty_parameter_is_400_witness :
  status (fst (weather Sample.str_exn Sample.py_repr Sample.down
                 (Sample.get_request [("city", EmptyString); ("place", EmptyString)])
                 Sample.w0)) = 400%Z
  /\ status (fst (hotels Sample.str_exn Sample.py_repr Sample.down
                    (Sample.get_request [("city", EmptyString); ("place", EmptyString)])
                    Sample.w0)) = 400%Z
  /\ status (fst (geocode Sample.str_exn Sample.py_repr Sample.down
                    (Sample.get_request [("city", EmptyString); ("place", EmptyString)])
                    Sample.w0)) = 400%Z.
Proof.
  pose proof (empty_parameter_is_400 Sample.str_exn Sample.py_repr Sample.down
                (Sample.get_request [("city", EmptyString); ("place", EmptyString)])
                Sample.w0) as (Hweather & Hhotels & Hgeocode).
  rewrite Hweather, Hhotels, Hgeocode by reflexivity.
  repeat split; reflexivity.
Defined.

(** X21 at a city the geocoder does not know. *)
Lemma hotels_city_not_found_witness :
  hotels Sample.str_exn Sample.py_repr (Sample.geocode_up [])
         (Sample.get_request [("city", "Atlantis")]) Sample.w0
  = ({| body := PDict [("error", PStr "City not found")]; status := 404 |},
     log_call (HttpGet "https://nominatim.openstreetmap.org/search?format=json&q=Atlantis"
                 [("User-Agent", "travel-buddy")]) Sample.w0).
Proof.
  apply (hotels_city_not_found Sample.str_exn Sample.py_repr (Sample.geocode_up [])
           (Sample.get_request [("city", "Atlantis")]) Sample.w0
           {| status_code := 200; json := Ok (PList []) |} (PList []));
    reflexivity.
Defined.

(** X22 at a good place, a place without geometry and another good place. *)
Lemma hotels_malformed_place_fails_request_witness :
  fst (hotels Sample.str_exn Sample.py_repr
         (Sample.hotels_up [Sample.named "Hotel A" 2 48; Sample.no_geometry;
                            Sample.named "Hotel B" 3 49])
         (Sample.get_request [("city", "Paris")]) Sample.w0)
  = {| body := PDict [("error", PStr "'geometry'")]; status := 500 |}.
Proof.
  apply (hotels_malformed_place_fails_request Sample.str_exn Sample.py_repr
           (Sample.hotels_up [Sample.named "Hotel A" 2 48; Sample.no_geometry;
                              Sample.named "Hotel B" 3 49])
           (Sample.get_request [("city", "Paris")]) Sample.w0
           {| status_code := 200; json := Ok (PList [Sample.paris]) |}
           {| status_code := 200;
              json := Ok (Sample.feature_collection
                            [Sample.named "Hotel A" 2 48; Sample.no_geometry;
                             Sample.named "Hotel B" 3 49]) |}
           (PList [Sample.paris]) Sample.paris (PStr "48.8534951") (PStr "2.3483915")
           (Sample.feature_collection
              [Sample.named "Hotel A" 2 48; Sample.no_geometry; Sample.named "Hotel B" 3 49])
           (PList [Sample.named "Hotel A" 2 48; Sample.no_geometry;
                   Sample.named "Hotel B" 3 49])
           [Sample.named "Hotel A" 2 48] Sample.no_geometry [Sample.named "Hotel B" 3 49]
           (KeyError (KStr "geometry")));
    try reflexivity.
  intros place [<- | []]. eexists. reflexivity.
Defined.

(** X23 at Paris with a places service that is down. *)
Lemma hotels_two_gets_in_order_witness :
  calls (snd (hotels Sample.str_exn Sample.py_repr (Sample.geocode_up [Sample.paris])
                (Sample.get_request [("city", "Paris")]) Sample.w0))
  = [HttpGet "https://nominatim.openstreetmap.org/search?format=json&q=Paris"
       [("User-Agent", "travel-buddy")];
     HttpGet "https://api.opentripmap.com/0.1/en/places/radius?radius=5000&lon=2.3483915&lat=48.8534951&kinds=accomodations&limit=5&apikey=otm-test"
       []].
Proof.
  apply (hotels_two_gets_in_order Sample.str_exn Sample.py_repr
           (Sample.geocode_up [Sample.paris])
           (Sample.get_request [("city", "Paris")]) Sample.w0
           {| status_code := 200; json := Ok (PList [Sample.paris]) |}
           (PList [Sample.paris]) Sample.paris (PStr "48.8534951") (PStr "2.3483915"));
    reflexivity.
Defined.

(** X24 at a geocoder that answers with an empty object. *)
Lemma geocode_falsy_answer_is_404_witness :
  geocode Sample.str_exn Sample.py_repr
          (Sample.stub (Sample.http_ok (PDict [])) (Raise Sample.unreachable)
             (Raise Sample.unreachable) (Raise Sample.unreachable))
          (Sample.get_request [("place", "Atlantis")]) Sample.w0
  = ({| body := PDict [("error", PStr "No results found")]; status := 404 |},
     log_call (HttpGet "https://nominatim.openstreetmap.org/search?format=json&q=Atlantis"
                 [("User-Agent", "travel-buddy")]) Sample.w0).
Proof.
  apply (geocode_falsy_answer_is_404 Sample.str_exn Sample.py_repr
           (Sample.stub (Sample.http_ok (PDict [])) (Raise Sample.unreachable)
              (Raise Sample.unreachable) (Raise Sample.unreachable))
           (Sample.get_request [("place", "Atlantis")]) Sample.w0
           {| status_code := 200; json := Ok (PDict []) |} (PDict []));
    reflexivity.
Defined.

(** X25 at a first result with a display name only. *)
Lemma geocode_incomplete_first_result_is_500_witness :
  fst (geocode Sample.str_exn Sample.py_repr
         (Sample.geocode_up [PDict [("display_name", PStr "Paris")]])
         (Sample.get_request [("place", "Paris")]) Sample.w0)
  = {| body := PDict [("error", PStr "'lat'")]; status := 500 |}.
Proof.
  apply (proj1 (geocode_incomplete_first_result_is_500 Sample.str_exn Sample.py_repr
                  (Sample.geocode_up [PDict [("display_name", PStr "Paris")]])
                  (Sample.get_request [("place", "Paris")]) Sample.w0
                  {| status_code := 200;
                     json := Ok (PList [PDict [("display_name", PStr "Paris")]]) |}
                  [("display_name", PStr "Paris")] [] eq_refl eq_refl eq_refl)).
  reflexivity.
Defined.

(** X26 at two process states with the same globals and different logs. *)
Lemma chat_hotels_keep_no_state_witness :
  fst (chat Sample.str_exn Sample.py_repr Sample.talkative
         (Sample.post_request Sample.trip) Sample.w1)
  = fst (chat Sample.str_exn Sample.py_repr Sample.talkative
           (Sample.post_request Sample.trip) Sample.w0)
  /\ fst (hotels Sample.str_exn Sample.py_repr Sample.talkative
            (Sample.post_request Sample.trip) Sample.w1)
     = fst (hotels Sample.str_exn Sample.py_repr Sample.talkative
              (Sample.post_request Sample.trip) Sample.w0).
Proof.
  apply (proj1 (chat_hotels_keep_no_state Sample.str_exn Sample.py_repr Sample.talkative
                  (Sample.post_request Sample.trip) Sample.w0) Sample.w1).
  repeat split; reflexivity.
Defined.
